(* ===== verification/_CoqProject ===== *)
-Q . S2P
Prelude.v
PosixPath.v
PathValidator.v
Codecs.v
FileReader.v
CountR.v
Dispatch.v
Startup.v
Agent.v
