(* ===== verification/Prelude.v ===== *)
(** * A verification development of the MCP demo server

    The repository is a small FastAPI service ([src/main.py]) with a
    client adapter for a hosted language model ([src/agent.py]).  Its
    parts, and how they interact:

    - the path validator [normalize_path] (main.py 125-151) expands
      environment variables, makes the path absolute, normalises it
      lexically and accepts it when it starts with one of four
      home-relative directories; it calls the Python library functions
      [os.path.expandvars], [isabs], [abspath], [normpath] and
      [expanduser];
    - the file reader [read_file] (main.py 153-209) calls the validator,
      then a global [is_path_allowed] that the module never defines,
      then checks existence, the file kind, and decodes the bytes with
      the encodings utf-8, latin-1, cp1252 in that order;
    - the character counter [count_r] (main.py 211-213);
    - the HTTP handlers [process_request] and [execute_tool]
      (main.py 220-282) that parse a prompt or a tool request and call
      the two tools, mapping exceptions to HTTP status codes, and the
      trivial routes (health, tool list, echo, root);
    - the start-up loop that looks for a free port (main.py 284-295);
    - the language-model adapter [MCPAgent] (agent.py 5-44) that reads
      an API key and builds the chat messages of one upstream call.

    Every request is handled on its own: the only state is the process
    environment (environment variables, working directory, home
    directory) and the file system, both read and never written.  The
    model therefore passes them explicitly, as a record [Env] and a
    finite map from paths to nodes, and every operation is a function
    into the result type [res] of this file, whose error case carries
    the Python exception the code raises.

    Files, in dependency order, and what each theorem group shows:
    - [Prelude] (this file): the result monad [res] for Python
      exceptions ([exn]: [HTTPException] with status and detail,
      [NameError], [IndexError], [FileNotFoundError], [PermissionError],
      [ValueError], [RuntimeError], [Exception]), its notation in
      [py_scope], the handlers [reraise_http_else] ([except
      HTTPException: raise] followed by [except Exception]) and
      [except_all] ([except Exception]), the [str] builtins the code uses
      ([lower], [count], [in], [split(sep)[1]], [strip], [startswith],
      [str(e)]) with their shared lemmas, and the hint databases [mcp]
      and [mcp_rw].
    - [PosixPath] (Module [PosixPath]): the process state [Env] and
      CPython's [posixpath] functions ([expandvars], [expanduser],
      [isabs], [join], [abspath], [normpath]); [normpath] is in normal
      form and idempotent (Section [NormpathLoop] carries the stack
      invariant), and [expandvars] terminates on its fuel.
    - [PathValidator] (Module [PathValidator]): [allowed_dirs],
      [under_allowed], [normalize_path]; its functional specification,
      the refinement of the spec's abstract validator [validate_spec],
      the confinement of accepted paths, the allowed directories
      recomputed from [$HOME] at each call, and the sibling-directory
      defect: every normal extension of an allowed directory that does
      not continue with [/] passes the raw prefix test.
    - [Codecs] (Module [Codecs]): strict UTF-8, latin-1 and cp1252
      decoding after CPython, the UTF-8 encoder, universal newlines;
      decode and encode are inverse on scalar values.
    - [FileReader] (Module [FileReader]): the module globals [Globals]
      built by [module_init], the encodings loop [try_encodings],
      [read_checked] and [read_file]; with the globals of the import
      every accepted path ends in a 500 [NameError]; once
      [is_path_allowed] is bound (Section [BoundGlobals]) each status
      code, the UTF-8 round trip, the absence of carriage returns, the
      unreachable undecodable error.  [read_file_no_cr] holds for all
      globals.
    - [CountR] (Module [CountR]): [count_r] and its closed form (the
      occurrences of [r] and of [R]).
    - [Dispatch] (Module [Dispatch]): the schemas, [process_request],
      [execute_tool] and the constant routes; every failure of
      [/process] is a 500 whose detail is [str] of the cause, a
      capitalised [READ_FILE] fails, the status of each case of the tool
      endpoint, the [count_r] answer for every prompt where [count_r]
      occurs once, and the unusable [read_file] tool.  The search lemmas
      of [Prelude] ([find_sub_first], [split_index1_once]) give the
      first occurrence that [str.split] cuts at.
    - [Startup] (Module [Startup]): the port search [find_port] and
      [main_port]: the first free port of 8081..8085, or exit status 1.
    - [Agent] (Module [Agent]): [MCPAgent]'s [init] and [process] over
      the interface class [ChatCompletion] of the upstream client (every
      theorem holds for every client): key handling, the messages and
      parameters sent, error wrapping, the first choice returned.

    Fuel and bounds.  The only loop whose recursion is not structural is
    [expandvars]: [expand_loop] is given [1 + length path] steps, and
    [expand_loop_total] shows that this fuel is enough (each step
    consumes at least one character of the rest of the string).  The
    port loop is a structural recursion on the five attempts.  Integers
    are Python's unbounded ones, so [Z] without wrap-around; bytes are
    [Z] values in [0, 256).

    Conventions.  Python [str] values that are paths, prompts or
    messages are modelled as [string] (ASCII): the code only ever
    inspects them with ASCII operations.  File contents are bytes
    ([list Z], each in [0, 256)) and decoded text is a list of code
    points ([list Z]).

    Not modelled: logging (no effect on results), the FastAPI and
    uvicorn machinery beyond the status code and detail of a raised
    [HTTPException] (routing, CORS, validation of request bodies by
    pydantic), [load_dotenv] (it only fills the environment the model
    takes as given), the socket probe [is_port_in_use] (its answers
    are the parameter [in_use]), the unused schemas [FileReadRequest],
    [CountRRequest], [MCPExecuteRequest], symbolic links (the code never
    resolves them; the file system is a map from the lexical path), and
    concurrent requests (the handlers share no mutable state: the only
    shared object, [openai.api_key], is written by [MCPAgent()] alone,
    which [main.py] never calls). *)

From Stdlib Require Import String Ascii ZArith Lia DecimalString.
From stdpp Require Import base list strings gmap.

Declare Scope py_scope.
Delimit Scope py_scope with py.
#[local] Open Scope string_scope.

(** stdpp declares [String.append] [simpl never]; the proofs of this
    development compute with it. *)
Arguments String.append : simpl nomatch.

(** ** Python exceptions and the result type *)

(** The exceptions that the modelled code raises, catches or lets
    escape.  [HTTPException] is FastAPI's, with its status code and
    detail. *)
Inductive exn : Type :=
| HTTPException (status_code : Z) (detail : string)
| NameError (name : string)
| IndexError
| FileNotFoundError
| PermissionError (filename : string)
| ValueError (msg : string)
| RuntimeError (msg : string)
| PyException (msg : string).

(** The outcome of a Python call: a value, or a raised exception. *)
Inductive res (A : Type) : Type :=
| Ok (a : A)
| Raise (e : exn).
Arguments Ok {A} a.
Arguments Raise {A} e.

Definition bind {A B} (r : res A) (k : A -> res B) : res B :=
  match r with
  | Ok a => k a
  | Raise e => Raise e
  end.

Notation "x <- c ;; k" := (bind c (fun x => k))
  (at level 100, c at next level, right associativity) : py_scope.

Definition is_ok {A} (r : res A) : bool :=
  match r with Ok _ => true | Raise _ => false end.

(** [except HTTPException: raise] followed by
    [except Exception as e: handler e]: an [HTTPException] escapes
    unchanged, every other exception goes to the handler. *)
Definition reraise_http_else {A} (r : res A) (h : exn -> res A) : res A :=
  match r with
  | Ok a => Ok a
  | Raise (HTTPException c d) => Raise (HTTPException c d)
  | Raise e => h e
  end.

(** [except Exception as e: handler e]: every exception is handled. *)
Definition except_all {A} (r : res A) (h : exn -> res A) : res A :=
  match r with
  | Ok a => Ok a
  | Raise e => h e
  end.

(** ** Python [str] builtins on ASCII strings *)

Definition chr (n : nat) : ascii := ascii_of_nat n.
Definition str1 (c : ascii) : string := String c EmptyString.
Definition nl : string := str1 (chr 10).

(** [s.startswith(p)] *)
Definition startswith (s p : string) : bool := String.prefix p s.

(** [c in s] for one character *)
Fixpoint str_mem (c : ascii) (s : string) : bool :=
  match s with
  | EmptyString => false
  | String x s' => if decide (x = c) then true else str_mem c s'
  end.

(** [s.split(c)] for a one-character separator *)
Fixpoint split_on (c : ascii) (s : string) : list string :=
  match s with
  | EmptyString => [EmptyString]
  | String x s' =>
      let r := split_on c s' in
      if decide (x = c) then EmptyString :: r
      else match r with
           | [] => [str1 x]
           | h :: t => String x h :: t
           end
  end.

(** [sep.join(l)] *)
Fixpoint join_with (sep : string) (l : list string) : string :=
  match l with
  | [] => EmptyString
  | [x] => x
  | x :: l' => x ++ sep ++ join_with sep l'
  end.

(** [s.endswith(c)] for one character *)
Fixpoint ends_with_char (c : ascii) (s : string) : bool :=
  match s with
  | EmptyString => false
  | String x EmptyString => if decide (x = c) then true else false
  | String _ s' => ends_with_char c s'
  end.

(** [s.rstrip(c)] for one character *)
Fixpoint rstrip_char (c : ascii) (s : string) : string :=
  match s with
  | EmptyString => EmptyString
  | String x s' =>
      let r := rstrip_char c s' in
      match r with
      | EmptyString => if decide (x = c) then EmptyString else str1 x
      | _ => String x r
      end
  end.

(** [s.lower()] on ASCII: [A-Z] become [a-z]. *)
Definition lower_char (c : ascii) : ascii :=
  let n := nat_of_ascii c in
  if (65 <=? n)%nat && (n <=? 90)%nat then ascii_of_nat (n + 32) else c.

Fixpoint py_lower (s : string) : string :=
  match s with
  | EmptyString => EmptyString
  | String c s' => String (lower_char c) (py_lower s')
  end.

(** [s.count(c)] for one character *)
Fixpoint count_char (c : ascii) (s : string) : nat :=
  match s with
  | EmptyString => 0
  | String x s' => (if decide (x = c) then 1 else 0) + count_char c s'
  end.

(** [sub in s] *)
Fixpoint contains (s sub : string) : bool :=
  String.prefix sub s ||
  match s with
  | EmptyString => false
  | String _ s' => contains s' sub
  end.

(** The leftmost occurrence of [sep] in [s]: the text before it and the
    text after it. *)
Fixpoint find_sub (s sep : string) : option (string * string) :=
  if String.prefix sep s then Some (EmptyString, substring (String.length sep) (String.length s - String.length sep) s)
  else match s with
       | EmptyString => None
       | String c s' =>
           match find_sub s' sep with
           | Some (b, a) => Some (String c b, a)
           | None => None
           end
       end.

(** [s.split(sep)[1]] for a non-empty [sep]: the piece between the first
    and the second occurrence (or the end); [IndexError] when [sep] does
    not occur. *)
Definition split_index1 (s sep : string) : res string :=
  match find_sub s sep with
  | None => Raise IndexError
  | Some (_, a) =>
      match find_sub a sep with
      | Some (b, _) => Ok b
      | None => Ok a
      end
  end.

(** [str.isspace] on ASCII: [	 
   
], the separators [1C-1F] and
    the space. *)
Definition is_space (c : ascii) : bool :=
  let n := nat_of_ascii c in
  ((9 <=? n)%nat && (n <=? 13)%nat) || ((28 <=? n)%nat && (n <=? 32)%nat).

Fixpoint lstrip (s : string) : string :=
  match s with
  | EmptyString => EmptyString
  | String c s' => if is_space c then lstrip s' else s
  end.

Fixpoint rstrip (s : string) : string :=
  match s with
  | EmptyString => EmptyString
  | String c s' =>
      match rstrip s' with
      | EmptyString => if is_space c then EmptyString else str1 c
      | r => String c r
      end
  end.

(** [s.strip()] *)
Definition py_strip (s : string) : string := rstrip (lstrip s).

(** A Python [str] as its list of code points *)
Fixpoint str_cps (s : string) : list Z :=
  match s with
  | EmptyString => []
  | String c s' => Z.of_nat (nat_of_ascii c) :: str_cps s'
  end.

(** [str(n)] for an integer *)
Definition z_to_str (n : Z) : string := NilZero.string_of_int (Z.to_int n).

(** [str(e)] for the exceptions above; for FastAPI's [HTTPException] it
    is ["<status_code>: <detail>"] (Starlette's [__str__]). *)
Definition str_exn (e : exn) : string :=
  match e with
  | HTTPException c d => z_to_str c ++ ": " ++ d
  | NameError n => "name '" ++ n ++ "' is not defined"
  | IndexError => "list index out of range"
  | FileNotFoundError => "[Errno 2] No such file or directory"
  | PermissionError f => "[Errno 13] Permission denied: '" ++ f ++ "'"
  | ValueError m => m
  | RuntimeError m => m
  | PyException m => m
  end.

(** ** Generic lemmas on strings *)

Create HintDb mcp.
Create Rewrite HintDb mcp_rw.

Lemma append_nil_r (s : string) : s ++ EmptyString = s.
Proof. induction s as [|c s IH]; simpl; [done | by rewrite IH]. Qed.

Lemma append_assoc (a b c : string) : (a ++ b) ++ c = a ++ (b ++ c).
Proof. induction a as [|x a IH]; simpl; [done | by rewrite IH]. Qed.

Lemma length_append (a b : string) :
  String.length (a ++ b) = String.length a + String.length b.
Proof. induction a as [|x a IH]; simpl; lia. Qed.

#[export] Hint Rewrite append_nil_r append_assoc length_append : mcp_rw.

Lemma prefix_app (p s : string) : String.prefix p (p ++ s) = true.
Proof.
  induction p as [|x p IH]; simpl; [by destruct s|].
  destruct (ascii_dec x x); [done | congruence].
Qed.

Lemma prefix_iff (p s : string) :
  String.prefix p s = true <-> exists t, s = p ++ t.
Proof.
  split.
  - revert s. induction p as [|x p IH]; intros s H; simpl in *.
    + by exists s.
    + destruct s as [|y s]; simpl in H; [discriminate|].
      destruct (ascii_dec x y) as [->|]; [|discriminate].
      destruct (IH s H) as [t ->]. by exists t.
  - intros [t ->]. apply prefix_app.
Qed.

Lemma startswith_app (p s : string) : startswith (p ++ s) p = true.
Proof. apply prefix_app. Qed.

#[export] Hint Resolve prefix_app startswith_app : mcp.

Lemma split_on_not_nil (c : ascii) (s : string) : split_on c s <> [].
Proof.
  induction s as [|x s IH]; simpl; [done|].
  case_decide; [done|]. by destruct (split_on c s).
Qed.

Lemma join_with_cons2 (sep x y : string) (l : list string) :
  join_with sep (x :: y :: l) = x ++ sep ++ join_with sep (y :: l).
Proof. reflexivity. Qed.

Lemma join_with_cons_head (sep : string) (x : ascii) (h : string) (t : list string) :
  join_with sep (String x h :: t) = String x (join_with sep (h :: t)).
Proof. by destruct t. Qed.

(** Joining the pieces of a split gives the string back. *)
Lemma join_split_on (c : ascii) (s : string) :
  join_with (str1 c) (split_on c s) = s.
Proof.
  induction s as [|x s IH]; simpl; [done|].
  pose proof (split_on_not_nil c s) as Hne.
  case_decide as Hx; subst.
  - destruct (split_on c s) as [|h t]; [done|].
    by rewrite join_with_cons2, IH.
  - destruct (split_on c s) as [|h t]; [done|].
    by rewrite join_with_cons_head, IH.
Qed.

Lemma split_on_no_sep (c : ascii) (s : string) :
  str_mem c s = false -> split_on c s = [s].
Proof.
  induction s as [|x s IH]; simpl; [done|].
  case_decide; [discriminate|]. intros Hs. by rewrite IH.
Qed.

Lemma split_on_sep_cons (c : ascii) (s : string) :
  split_on c (String c s) = EmptyString :: split_on c s.
Proof. simpl. by rewrite decide_True. Qed.

Lemma split_on_app (c : ascii) (x s : string) :
  str_mem c x = false ->
  split_on c (x ++ s) =
    match split_on c s with
    | [] => [x]
    | h :: t => (x ++ h) :: t
    end.
Proof.
  pose proof (split_on_not_nil c s).
  induction x as [|y x IH]; intros Hx; simpl in *.
  - by destruct (split_on c s).
  - case_decide; [discriminate|]. rewrite (IH Hx).
    by destruct (split_on c s).
Qed.

(** Splitting a join of separator-free pieces gives the pieces back. *)
Lemma split_on_join (c : ascii) (l : list string) :
  l <> [] -> Forall (fun x => str_mem c x = false) l ->
  split_on c (join_with (str1 c) l) = l.
Proof.
  induction l as [|x l IH]; intros Hne Hall; [done|].
  inversion Hall as [|? ? Hx Hl]; subst.
  destruct l as [|y l].
  - by apply split_on_no_sep.
  - rewrite join_with_cons2, split_on_app by done.
    change (str1 c ++ ?J) with (String c J).
    rewrite split_on_sep_cons, IH by done.
    by rewrite append_nil_r.
Qed.

(** No piece of a split contains the separator. *)
Lemma split_on_pieces (c : ascii) (s : string) :
  Forall (fun x => str_mem c x = false) (split_on c s).
Proof.
  induction s as [|x s IH]; simpl; [by constructor|].
  case_decide as Hx; [by constructor|].
  destruct (split_on c s) as [|h t]; inversion IH; subst;
    repeat constructor; simpl; try case_decide; done.
Qed.

Lemma prefix_cons_cons (a b : ascii) (p s : string) :
  String.prefix (String a p) (String b s) =
    if ascii_dec a b then String.prefix p s else false.
Proof. reflexivity. Qed.

Lemma startswith_cons (x : ascii) (s p : string) :
  startswith (String x s) (String x p) = startswith s p.
Proof. unfold startswith. simpl. by destruct (ascii_dec x x). Qed.

Lemma startswith_empty (s : string) : startswith s "" = true.
Proof. by destruct s. Qed.

#[export] Hint Rewrite startswith_cons startswith_empty : mcp_rw.

Lemma join_with_cons_app (sep c : string) (l : list string) :
  exists t, join_with sep (c :: l) = c ++ t.
Proof.
  destruct l as [|y l].
  - exists "". by rewrite append_nil_r.
  - eexists. reflexivity.
Qed.

(** A join whose first piece is non-empty and slash-free does not
    start with a slash. *)
Lemma join_with_not_slash (sep : string) (l : list string) :
  Forall (fun x => x <> "" /\ str_mem "/" x = false) l ->
  startswith (join_with sep l) "/" = false.
Proof.
  intros Hl. destruct l as [|c l]; [done|].
  inversion Hl as [|? ? [Hne Hs] _]; subst.
  destruct (join_with_cons_app sep c l) as [t ->].
  destruct c as [|x c]; [done|]. simpl in Hs.
  change (String x c ++ t) with (String x (c ++ t)).
  case_decide; [discriminate|]. unfold startswith.
  rewrite prefix_cons_cons. destruct (ascii_dec "/" x); [congruence|done].
Qed.

(** ** Generic lemmas on lists *)

Lemma existsb_true_Exists {A} (f : A -> bool) (l : list A) :
  existsb f l = true <-> Exists (fun x => f x = true) l.
Proof.
  induction l as [|x l IH]; simpl.
  - split; [done|]. inversion 1.
  - by rewrite orb_true_iff, Exists_cons, IH.
Qed.

Lemma existsb_false_Forall {A} (f : A -> bool) (l : list A) :
  existsb f l = false <-> Forall (fun x => f x = false) l.
Proof.
  induction l as [|x l IH]; simpl.
  - split; [done|constructor].
  - by rewrite orb_false_iff, Forall_cons, IH.
Qed.

(** ** Lemmas on substring search *)

Lemma substring_full (s : string) : substring 0 (String.length s) s = s.
Proof. induction s as [|c s IH]; simpl; [done|]. by rewrite IH. Qed.

Lemma substring_after_prefix (p s : string) :
  substring (String.length p) (String.length (p ++ s) - String.length p) (p ++ s) = s.
Proof.
  rewrite length_append, Nat.add_comm, Nat.add_sub.
  induction p as [|c p IH]; simpl; [apply substring_full|done].
Qed.

(** The leftmost occurrence of [p] in [p ++ s] is at the start. *)
Lemma find_sub_eq (s sep : string) :
  find_sub s sep =
    if String.prefix sep s
    then Some (EmptyString, substring (String.length sep) (String.length s - String.length sep) s)
    else match s with
         | EmptyString => None
         | String c s' =>
             match find_sub s' sep with
             | Some (b, a) => Some (String c b, a)
             | None => None
             end
         end.
Proof. by destruct s. Qed.

Lemma find_sub_prefix (p s : string) : find_sub (p ++ s) p = Some (EmptyString, s).
Proof. by rewrite find_sub_eq, prefix_app, substring_after_prefix. Qed.

(** A separator that does not occur is not found. *)
Lemma find_sub_absent (s sep : string) : contains s sep = false -> find_sub s sep = None.
Proof.
  induction s as [|c s IH]; intros H; rewrite find_sub_eq.
  - change (String.prefix sep "" || false = false) in H.
    apply orb_false_iff in H as [-> _]. done.
  - change (String.prefix sep (String c s) || contains s sep = false) in H.
    apply orb_false_iff in H as [-> Hc]. by rewrite (IH Hc).
Qed.

Lemma split_index1_absent (s sep : string) :
  contains s sep = false -> split_index1 s sep = Raise IndexError.
Proof. intros H. unfold split_index1. by rewrite find_sub_absent. Qed.

Lemma contains_eq (s sub : string) :
  contains s sub =
    String.prefix sub s ||
    match s with
    | EmptyString => false
    | String _ s' => contains s' sub
    end.
Proof. by destruct s. Qed.

Lemma contains_prefix (p s : string) : contains (p ++ s) p = true.
Proof. by rewrite contains_eq, prefix_app. Qed.

(** A prefix test that fails within [s] fails on every extension of [s]. *)
Lemma prefix_app_false (p s u : string) :
  String.prefix p s = false -> String.length p <= String.length s ->
  String.prefix p (s ++ u) = false.
Proof.
  revert s. induction p as [|c p IH]; intros s Hp Hl; [by destruct s|].
  destruct s as [|d s]; simpl in *; [lia|].
  destruct (ascii_dec c d); [|done]. apply IH; [done|lia].
Qed.

(** A separator occurs in any text that contains it in the middle. *)
Lemma contains_mid (a p t : string) : contains (a ++ p ++ t) p = true.
Proof.
  induction a as [|x a IH]; [apply (contains_prefix p t)|].
  rewrite contains_eq. simpl. by rewrite IH, orb_true_r.
Qed.

(** The leftmost occurrence: when [sep] (a text [p] followed by one more
    character) does not start anywhere in [a], the first occurrence of
    [sep] in [a ++ sep ++ t] is the one after [a]. *)
Lemma find_sub_first (a p t : string) (c : ascii) :
  contains (a ++ p) (p ++ str1 c) = false ->
  find_sub (a ++ (p ++ str1 c) ++ t) (p ++ str1 c) = Some (a, t).
Proof.
  induction a as [|x a IH]; intros H; [apply (find_sub_prefix (p ++ str1 c) t)|].
  rewrite contains_eq in H. apply orb_false_iff in H as [Hp Hc].
  rewrite find_sub_eq.
  assert (Hpre : String.prefix (p ++ str1 c) (String x a ++ (p ++ str1 c) ++ t) = false).
  { replace (String x a ++ (p ++ str1 c) ++ t) with (String x (a ++ p) ++ (str1 c ++ t))
      by (simpl; by rewrite !append_assoc).
    apply prefix_app_false; [done|]. simpl. rewrite !length_append. simpl. lia. }
  rewrite Hpre. simpl (String x a ++ _). cbv beta iota.
  by rewrite (IH Hc).
Qed.

(** [s.split(sep)[1]] where [sep] occurs exactly once, after [a]. *)
Lemma split_index1_once (a p t : string) (c : ascii) :
  contains (a ++ p) (p ++ str1 c) = false -> contains t (p ++ str1 c) = false ->
  split_index1 (a ++ (p ++ str1 c) ++ t) (p ++ str1 c) = Ok t.
Proof.
  intros Ha Ht. unfold split_index1. by rewrite find_sub_first, find_sub_absent.
Qed.

(** A common prefix does not change a prefix test. *)
Lemma prefix_app_cancel (p a b : string) :
  String.prefix (p ++ a) (p ++ b) = String.prefix a b.
Proof.
  induction p as [|c p IH]; [done|]. simpl. by destruct (ascii_dec c c).
Qed.
