(* ===== verification/PosixPath.v ===== *)
(** * [posixpath]: the path functions that [normalize_path] calls

    The validator of [src/main.py] calls [os.path.expandvars],
    [os.path.isabs], [os.path.abspath], [os.path.normpath] and
    [os.path.expanduser]; on a POSIX host these are the functions of
    CPython's [Lib/posixpath.py], translated here with the process state
    they read ([os.environ], [os.getcwd()], the password database) made
    an explicit record [Env].  The main results are the normal form of
    [normpath] (no empty, [.] or, under a root, [..] component) and its
    idempotence, proved through an invariant of its component stack. *)

From Stdlib Require Import String Ascii ZArith Lia.
From stdpp Require Import base list strings gmap.
From S2P Require Import Prelude.

Open Scope string_scope.

(** ** The process state the path functions read *)

(** [environ] is [os.environ]; [cwd] is what [os.getcwd()] returns
    ([None] when it raises, e.g. after the directory was removed);
    [pw_home] is [pwd.getpwuid(os.getuid()).pw_dir] ([None] when the
    uid has no entry) and [pw_users] maps a user name to its [pw_dir]. *)
Record Env : Type := mkEnv {
  environ : gmap string string;
  cwd : option string;
  pw_home : option string;
  pw_users : gmap string string
}.

Module PosixPath.

Definition slash : ascii := "/".

(** ** [isabs] and [join] *)

(** [isabs(s)]: [s.startswith(sep)] *)
Definition isabs (s : string) : bool := startswith s "/".

(** [join(a, b)] with one extra argument *)
Definition join (a b : string) : string :=
  if startswith b "/" then b
  else if bool_decide (a = "") || ends_with_char slash a then a ++ b
  else a ++ "/" ++ b.

(** ** [normpath] *)

(** [initial_slashes]: one or two leading slashes are kept, three or
    more count as one. *)
Definition initial_slashes (s : string) : string :=
  if startswith s "/" then
    if startswith s "//" && negb (startswith s "///") then "//" else "/"
  else "".

(** One iteration of [for comp in comps:].  The list [new_comps] is held
    reversed, so [new_comps[-1]] is the head of [stk]. *)
Definition normpath_step (absolute : bool) (stk : list string) (comp : string)
    : list string :=
  if bool_decide (comp = "") || bool_decide (comp = ".") then stk
  else if negb (bool_decide (comp = ".."))
          || (negb absolute && bool_decide (stk = []))
          || bool_decide (head stk = Some "..")
  then comp :: stk
  else match stk with
       | [] => []
       | _ :: stk' => stk'
       end.

Definition normpath_comps (absolute : bool) (s : string) : list string :=
  foldl (normpath_step absolute) [] (split_on slash s).

Definition normpath (s : string) : string :=
  if bool_decide (s = "") then "."
  else
    let ini := initial_slashes s in
    let p := ini ++ join_with "/" (reverse (normpath_comps (bool_decide (ini <> "")) s)) in
    if bool_decide (p = "") then "." else p.

(** ** [abspath] and [expanduser] *)

(** [abspath(path)]; [os.getcwd()] raises [FileNotFoundError] when the
    working directory is gone. *)
Definition abspath (env : Env) (path : string) : res string :=
  if negb (isabs path) then
    match cwd env with
    | Some c => Ok (normpath (join c path))
    | None => Raise FileNotFoundError
    end
  else Ok (normpath path).

(** [path.find(sep, 1)], or [len(path)] when there is none *)
Fixpoint find_slash_from1_aux (s : string) (i : nat) : nat :=
  match s with
  | EmptyString => i
  | String c s' => if decide (c = slash) then i else find_slash_from1_aux s' (S i)
  end.

Definition find_slash_from1 (s : string) : nat :=
  match s with
  | EmptyString => 0
  | String _ s' => find_slash_from1_aux s' 1
  end.

(** [expanduser(path)] *)
Definition expanduser (env : Env) (path : string) : string :=
  if negb (startswith path "~") then path
  else
    let i := find_slash_from1 path in
    let userhome :=
      if decide (i = 1) then
        match environ env !! "HOME" with
        | Some h => Some h
        | None => pw_home env
        end
      else pw_users env !! substring 1 (i - 1) path in
    match userhome with
    | None => path
    | Some h =>
        let r := rstrip_char slash h ++ substring i (String.length path - i) path in
        if bool_decide (r = "") then "/" else r
    end.


(** ** [expandvars] *)

(** [\w] under [re.ASCII]: [[a-zA-Z0-9_]] *)
Definition is_word_char (c : ascii) : bool :=
  let n := nat_of_ascii c in
  (Nat.leb 48 n && Nat.leb n 57) || (Nat.leb 65 n && Nat.leb n 90)
  || (Nat.leb 97 n && Nat.leb n 122) || Nat.eqb n 95.

(** [\w+] is greedy: the longest prefix of word characters, and the rest. *)
Fixpoint take_word (s : string) : string * string :=
  match s with
  | EmptyString => ("", "")
  | String c s' =>
      if is_word_char c then let '(w, r) := take_word s' in (String c w, r)
      else ("", s)
  end.

(** [[^}]*\}]: the text before the first [}], and the rest after it. *)
Fixpoint take_to_brace (s : string) : option (string * string) :=
  match s with
  | EmptyString => None
  | String c s' =>
      if decide (c = "}"%char) then Some ("", s')
      else match take_to_brace s' with
           | Some (n, r) => Some (String c n, r)
           | None => None
           end
  end.

(** A match of [\$(\w+|\{[^}]*\})] at the start of [s]: group 1 and the
    rest of [s] after the match.  The first alternative is tried first. *)
Definition match_var (s : string) : option (string * string) :=
  match s with
  | String d s' =>
      if decide (d = "$"%char) then
        match take_word s' with
        | (String c w, r) => Some (String c w, r)
        | (EmptyString, _) =>
            match s' with
            | String b s'' =>
                if decide (b = "{"%char) then
                  match take_to_brace s'' with
                  | Some (n, r) => Some ("{" ++ n ++ "}", r)
                  | None => None
                  end
                else None
            | EmptyString => None
            end
        end
      else None
  | EmptyString => None
  end.

(** [_varprog.search(path, i)] on the suffix [s] of the path that starts
    at [i]: the text before the leftmost match, group 1, and the rest
    after the match. *)
Fixpoint search_var (s : string) : option (string * string * string) :=
  match match_var s with
  | Some (g, r) => Some ("", g, r)
  | None =>
      match s with
      | EmptyString => None
      | String c s' =>
          match search_var s' with
          | Some (pre, g, r) => Some (String c pre, g, r)
          | None => None
          end
      end
  end.

(** [name[1:-1]] when [name] is braced *)
Definition var_name (g : string) : string :=
  if startswith g "{" && ends_with_char "}" g
  then substring 1 (String.length g - 2) g else g.

(** The [while True] loop of [expandvars] on the unscanned suffix [s];
    a defined variable is replaced by its value, an undefined one is
    kept as it is ([except KeyError: i = j]) and the scan goes on after
    the match.  [None] only when the fuel runs out. *)
Fixpoint expand_loop (fuel : nat) (env : gmap string string) (s : string)
    : option string :=
  match fuel with
  | O => None
  | S f =>
      match search_var s with
      | None => Some s
      | Some (pre, g, rest) =>
          let value :=
            match env !! var_name g with
            | Some v => v
            | None => "$" ++ g
            end in
          match expand_loop f env rest with
          | Some r => Some (pre ++ value ++ r)
          | None => None
          end
      end
  end.

(** [expandvars(path)]; the loop consumes at least one character per
    iteration, so [len(path) + 1] iterations suffice
    ([expand_loop_total]). *)
Definition expandvars (env : gmap string string) (path : string) : string :=
  if negb (str_mem "$" path) then path
  else match expand_loop (S (String.length path)) env path with
       | Some r => r
       | None => path
       end.

(** ** The loop of [normpath] *)

Section NormpathLoop.
Context (absolute : bool).

(** One iteration leaves the stack, pushes the component, or pops. *)
Lemma normpath_step_cases stk comp :
  normpath_step absolute stk comp = stk \/
  normpath_step absolute stk comp = comp :: stk \/
  normpath_step absolute stk comp = tail stk.
Proof.
  unfold normpath_step.
  destruct (_ || _); [by left|].
  destruct (_ || _ || _); [by right; left|].
  right; right. by destruct stk.
Qed.

Lemma normpath_step_empty stk : normpath_step absolute stk "" = stk.
Proof. reflexivity. Qed.

(** A stack is a fixed point of the loop: running the loop on the
    components of any of its suffixes, in order, rebuilds that suffix. *)
Definition stack_fixed (stk : list string) : Prop :=
  forall k, foldl (normpath_step absolute) [] (reverse (drop k stk)) = drop k stk.

Lemma stack_fixed_nil : stack_fixed [].
Proof. intros k. by rewrite drop_nil. Qed.

Lemma stack_fixed_step stk comp :
  stack_fixed stk -> stack_fixed (normpath_step absolute stk comp).
Proof.
  intros Hfix.
  destruct (normpath_step_cases stk comp) as [-> | [Hpush | ->]]; [done| |].
  - rewrite Hpush. intros [|k]; [|exact (Hfix k)].
    pose proof (Hfix 0) as H0. rewrite drop_0 in H0.
    rewrite drop_0, reverse_cons, foldl_app, H0. exact Hpush.
  - destruct stk as [|x stk]; [apply stack_fixed_nil|].
    intros k. exact (Hfix (S k)).
Qed.

Lemma stack_fixed_foldl stk l :
  stack_fixed stk -> stack_fixed (foldl (normpath_step absolute) stk l).
Proof. revert stk. induction l; simpl; auto using stack_fixed_step. Qed.

(** The components the loop keeps: non-empty, not [.], slash-free, and
    never [..] below a root. *)
Definition good_comp (c : string) : Prop :=
  c <> "" /\ c <> "." /\ str_mem slash c = false /\ (absolute = true -> c <> "..").

Lemma normpath_step_good stk comp :
  str_mem slash comp = false -> Forall good_comp stk ->
  Forall good_comp (normpath_step absolute stk comp).
Proof.
  intros Hc Hstk. unfold normpath_step.
  destruct (bool_decide (comp = "") || bool_decide (comp = ".")) eqn:Hskip; [done|].
  apply orb_false_iff in Hskip as [He Hd].
  apply bool_decide_eq_false in He, Hd.
  destruct (_ || _ || _) eqn:Hpush.
  - constructor; [|done]. repeat split; try done.
    intros Habs ->. rewrite Habs in Hpush. simpl in Hpush.
    apply bool_decide_eq_true in Hpush.
    destruct stk as [|x stk]; simpl in Hpush; [discriminate|].
    injection Hpush as ->. inversion Hstk as [|? ? (_ & _ & _ & Hx) _].
    by apply Hx.
  - destruct stk; [done|]. by inversion Hstk.
Qed.

Lemma normpath_foldl_good stk l :
  Forall (fun c => str_mem slash c = false) l -> Forall good_comp stk ->
  Forall good_comp (foldl (normpath_step absolute) stk l).
Proof.
  intros Hl. revert stk. induction Hl; simpl; auto using normpath_step_good.
Qed.

Lemma normpath_comps_good s : Forall good_comp (normpath_comps absolute s).
Proof. apply normpath_foldl_good; [apply split_on_pieces | constructor]. Qed.

Lemma normpath_comps_fixed s : stack_fixed (normpath_comps absolute s).
Proof. apply stack_fixed_foldl, stack_fixed_nil. Qed.

(** Splitting the joined components of a good fixed stack and running
    the loop again gives the stack back. *)
Lemma normpath_comps_join stk :
  Forall good_comp stk -> stack_fixed stk ->
  foldl (normpath_step absolute) [] (split_on slash (join_with "/" (reverse stk))) = stk.
Proof.
  intros Hgood Hfix. destruct stk as [|x stk]; [reflexivity|].
  rewrite split_on_join.
  - pose proof (Hfix 0) as H0. by rewrite drop_0 in H0.
  - rewrite reverse_cons. by destruct (reverse stk).
  - apply Forall_reverse. eapply Forall_impl; [exact Hgood|]. by intros c (_ & _ & ? & _).
Qed.

End NormpathLoop.

(** ** [normpath] on strings *)

Lemma initial_slashes_cases s :
  initial_slashes s = "" \/ initial_slashes s = "/" \/ initial_slashes s = "//".
Proof.
  unfold initial_slashes.
  destruct (startswith s "/"); [destruct (_ && _)|]; auto.
Qed.

Lemma initial_slashes_app ini j :
  (ini = "" \/ ini = "/" \/ ini = "//") -> startswith j "/" = false ->
  initial_slashes (ini ++ j) = ini.
Proof.
  intros Hini Hj. unfold initial_slashes.
  destruct Hini as [-> | [-> | ->]]; cbn [String.append];
    rewrite ?startswith_cons, ?startswith_empty, ?Hj; reflexivity.
Qed.

Lemma initial_slashes_isabs s :
  isabs s = true -> initial_slashes s = "/" \/ initial_slashes s = "//".
Proof.
  unfold isabs, initial_slashes. intros ->. destruct (_ && _); auto.
Qed.

Lemma foldl_skip_empty absolute stk l :
  foldl (normpath_step absolute) stk ("" :: l) = foldl (normpath_step absolute) stk l.
Proof. reflexivity. Qed.

(** The two outcomes of [normpath]: [.], or the kept slashes followed by
    the joined components of the loop. *)
Lemma normpath_shape s :
  normpath s = "." \/
  (initial_slashes s ++ join_with "/" (reverse
      (normpath_comps (bool_decide (initial_slashes s <> "")) s)) <> "" /\
   normpath s = initial_slashes s ++ join_with "/" (reverse
      (normpath_comps (bool_decide (initial_slashes s <> "")) s))).
Proof.
  unfold normpath. cbv zeta.
  case_bool_decide; [by left|]. case_bool_decide; [by left | by right].
Qed.

Lemma join_good_not_slash absolute stk :
  Forall (good_comp absolute) stk ->
  startswith (join_with "/" (reverse stk)) "/" = false.
Proof.
  intros Hgood. apply join_with_not_slash, Forall_reverse.
  eapply Forall_impl; [exact Hgood|]. by intros c (? & _ & ? & _).
Qed.

(** A string already in the shape [normpath] produces is left as it is. *)
Lemma normpath_renormalize ini stk :
  (ini = "" \/ ini = "/" \/ ini = "//") ->
  Forall (good_comp (bool_decide (ini <> ""))) stk ->
  stack_fixed (bool_decide (ini <> "")) stk ->
  ini ++ join_with "/" (reverse stk) <> "" ->
  normpath (ini ++ join_with "/" (reverse stk)) = ini ++ join_with "/" (reverse stk).
Proof.
  intros Hini Hgood Hfix Hne.
  pose proof (join_good_not_slash _ _ Hgood) as Hj.
  unfold normpath. cbv zeta.
  rewrite bool_decide_eq_false_2 by done.
  rewrite initial_slashes_app by done.
  assert (normpath_comps (bool_decide (ini <> "")) (ini ++ join_with "/" (reverse stk))
          = stk) as ->.
  { unfold normpath_comps.
    destruct Hini as [-> | [-> | ->]]; cbn [String.append];
      rewrite ?split_on_sep_cons, ?foldl_skip_empty;
      by apply normpath_comps_join. }
  by rewrite bool_decide_eq_false_2.
Qed.

(** Every piece of the split of a good joined stack is empty or good. *)
Lemma split_join_good absolute stk :
  Forall (good_comp absolute) stk ->
  Forall (fun c => c = "" \/ good_comp absolute c)
    (split_on slash (join_with "/" (reverse stk))).
Proof.
  intros Hgood. destruct stk as [|x stk]; [by repeat constructor; left|].
  rewrite split_on_join.
  - apply Forall_reverse. eapply Forall_impl; [exact Hgood|]. by right.
  - rewrite reverse_cons. by destruct (reverse stk).
  - apply Forall_reverse. eapply Forall_impl; [exact Hgood|]. by intros c (_ & _ & ? & _).
Qed.

Lemma normpath_isabs_eq s :
  isabs s = true ->
  normpath s = initial_slashes s ++ join_with "/" (reverse (normpath_comps true s)).
Proof.
  intros Habs. assert (s <> "") by (by destruct s).
  unfold normpath. cbv zeta. rewrite bool_decide_eq_false_2 by done.
  destruct (initial_slashes_isabs s Habs) as [-> | ->];
    rewrite bool_decide_eq_false_2 by done; reflexivity.
Qed.

Lemma isabs_slash_app ini j :
  ini = "/" \/ ini = "//" -> isabs (ini ++ j) = true.
Proof.
  unfold isabs. intros [-> | ->]; cbn [String.append];
    by rewrite startswith_cons, startswith_empty.
Qed.

(** Every piece of the split of a path in [normpath]'s absolute shape is
    empty or a good component. *)
Lemma split_normpath_abs s :
  isabs s = true ->
  Forall (fun c => c = "" \/ good_comp true c) (split_on slash (normpath s)).
Proof.
  intros Habs. rewrite normpath_isabs_eq by done.
  pose proof (split_join_good true _ (normpath_comps_good true s)) as Hg.
  destruct (initial_slashes_isabs s Habs) as [-> | ->]; cbn [String.append];
    rewrite ?split_on_sep_cons; by repeat constructor; try left.
Qed.

(** [os.path.normpath] is idempotent: normalising a normalised path
    changes nothing, for every string, relative or absolute. *)
Theorem normpath_idempotent s : normpath (normpath s) = normpath s.
Proof.
  destruct (normpath_shape s) as [-> | [Hne ->]]; [reflexivity|].
  apply normpath_renormalize;
    auto using initial_slashes_cases, normpath_comps_good, normpath_comps_fixed.
Qed.

(** [normpath] keeps an absolute path absolute. *)
Lemma normpath_isabs s : isabs s = true -> isabs (normpath s) = true.
Proof.
  intros Habs. rewrite normpath_isabs_eq by done.
  by apply isabs_slash_app, initial_slashes_isabs.
Qed.

(** The normal form of an absolute path has no [.] and no [..] segment:
    [..] cannot climb out of a directory after normalisation. *)
Theorem normpath_no_dot_segments s :
  isabs s = true ->
  Forall (fun c => c <> "." /\ c <> "..") (split_on slash (normpath s)).
Proof.
  intros Habs. eapply Forall_impl; [exact (split_normpath_abs s Habs)|].
  intros c [-> | (_ & Hd & _ & Hdd)]; [done|]. split; [done|]. by apply Hdd.
Qed.

(** ** Properties of [expandvars] *)

Lemma take_word_app s w r : take_word s = (w, r) -> s = w ++ r.
Proof.
  revert w r. induction s as [|c s IH]; intros w r H; simpl in H.
  - by injection H as <- <-.
  - destruct (is_word_char c); [|by injection H as <- <-].
    destruct (take_word s) as [w' r'] eqn:E. injection H as <- <-.
    by rewrite (IH _ _ eq_refl).
Qed.

Lemma take_to_brace_app s n r : take_to_brace s = Some (n, r) -> s = n ++ "}" ++ r.
Proof.
  revert n r. induction s as [|c s IH]; intros n r H; simpl in H; [discriminate|].
  case_decide; [subst; by injection H as <- <-|].
  destruct (take_to_brace s) as [[n' r']|] eqn:E; [|discriminate].
  injection H as <- <-. by rewrite (IH _ _ eq_refl).
Qed.

(** A match is the [$], then group 1 (never empty), then the rest. *)
Lemma match_var_app s g r : match_var s = Some (g, r) -> s = "$" ++ g ++ r /\ g <> "".
Proof.
  destruct s as [|d s']; simpl; [discriminate|].
  case_decide; [subst|discriminate].
  destruct (take_word s') as [w r'] eqn:Hw. destruct w as [|c w].
  - destruct s' as [|b s'']; [discriminate|]. case_decide; [subst|discriminate].
    destruct (take_to_brace s'') as [[n r'']|] eqn:Hb; [|discriminate].
    intros [= <- <-]. apply take_to_brace_app in Hb. subst.
    split; [|done]. simpl. by rewrite append_assoc.
  - intros [= <- <-]. apply take_word_app in Hw. by subst.
Qed.

Lemma search_var_eq s :
  search_var s =
    match match_var s with
    | Some (g, r) => Some ("", g, r)
    | None =>
        match s with
        | EmptyString => None
        | String c s' =>
            match search_var s' with
            | Some (pre, g, r) => Some (String c pre, g, r)
            | None => None
            end
        end
    end.
Proof. by destruct s. Qed.

(** A search result splits the scanned text into the text before the
    match, the match and the rest. *)
Lemma search_var_app s pre g r :
  search_var s = Some (pre, g, r) -> s = pre ++ "$" ++ g ++ r /\ g <> "".
Proof.
  revert pre g r. induction s as [|c s IH]; intros pre g r; [discriminate|].
  rewrite search_var_eq.
  destruct (match_var (String c s)) as [[g' r']|] eqn:Hm.
  - intros [= <- <- <-]. by apply match_var_app.
  - destruct (search_var s) as [[[pre' g'] r']|] eqn:Hs; [|discriminate].
    intros [= <- <- <-]. destruct (IH _ _ _ eq_refl) as [-> ?]. done.
Qed.

Lemma search_var_shorter s pre g r :
  search_var s = Some (pre, g, r) -> String.length r < String.length s.
Proof.
  intros Hs. destruct (search_var_app _ _ _ _ Hs) as [-> Hg].
  destruct g; [done|]. autorewrite with mcp_rw. simpl. lia.
Qed.

Lemma expand_loop_enough n env s :
  String.length s < n -> exists r, expand_loop n env s = Some r.
Proof.
  revert s. induction n as [|n IH]; intros s Hlt; [lia|]. simpl.
  destruct (search_var s) as [[[pre g] rest]|] eqn:Hs; [|by eexists].
  apply search_var_shorter in Hs.
  destruct (IH rest ltac:(lia)) as [r ->]. by eexists.
Qed.

(** The scanning loop of [expandvars] terminates: with the fuel
    [len(path) + 1] it always returns, whatever the environment. *)
Theorem expand_loop_total env s :
  exists r, expand_loop (S (String.length s)) env s = Some r.
Proof. apply expand_loop_enough. lia. Qed.

Lemma expand_loop_no_vars n s :
  String.length s < n -> expand_loop n ∅ s = Some s.
Proof.
  revert s. induction n as [|n IH]; intros s Hlt; [lia|]. simpl.
  destruct (search_var s) as [[[pre g] rest]|] eqn:Hs; [|done].
  pose proof (search_var_shorter _ _ _ _ Hs) as Hr.
  rewrite lookup_empty, (IH rest ltac:(lia)).
  destruct (search_var_app _ _ _ _ Hs) as [-> _].
  by autorewrite with mcp_rw.
Qed.

(** [expanduser("~/" + n)] reads [$HOME] when it is set: the home
    directory without its trailing slashes, then [/n]. *)
Lemma expanduser_home env h n :
  environ env !! "HOME" = Some h ->
  expanduser env (String "~" (String "/" n)) = rstrip_char slash h ++ String "/" n.
Proof.
  intros Hh. unfold expanduser. simpl. rewrite Hh.
  rewrite substring_full.
  rewrite bool_decide_false; [done|].
  intros Heq. apply (f_equal String.length) in Heq.
  rewrite length_append in Heq. simpl in Heq. lia.
Qed.

(** A path without [$] is left unchanged by [expandvars] (the fast path
    [if '$' not in path: return path]). *)
Lemma expandvars_no_dollar env s : str_mem "$" s = false -> expandvars env s = s.
Proof. intros H. unfold expandvars. by rewrite H. Qed.

(** Undefined variables are left as they are: with an empty environment
    [expandvars] is the identity. *)
Lemma expandvars_no_vars s : expandvars ∅ s = s.
Proof.
  unfold expandvars. destruct (negb _); [done|].
  by rewrite expand_loop_no_vars by lia.
Qed.

End PosixPath.
