(* ===== verification/PathValidator.v ===== *)
(** * The path validator: [normalize_path] of [src/main.py] (lines 125-151)

    [normalize_path] expands environment variables, makes the path
    absolute against the working directory, normalises it, and accepts
    it when it starts with one of the four directories
    [~/Documents], [~/Downloads], [~/Desktop], [~/github]; otherwise it
    raises an [HTTPException] with status 403.  This file holds the
    translation, the validator that the spec describes (section 4.1)
    as an abstract relation with the refinement theorem, the
    confinement invariant of the paths it returns, the allowed
    directories as a function of [$HOME] read at each call, and the
    sibling-directory false positive of its raw prefix test, for every
    allowed directory. *)

From Stdlib Require Import String Ascii ZArith Lia.
From stdpp Require Import base list strings gmap.
From S2P Require Import Prelude PosixPath.

Open Scope string_scope.

Module PathValidator.
Import PosixPath.

(** ** The translation *)

(** [allowed_dirs], built at each call (lines 138-143) *)
Definition allowed_dirs (env : Env) : list string :=
  [expanduser env "~/Documents"; expanduser env "~/Downloads";
   expanduser env "~/Desktop"; expanduser env "~/github"].

Definition denied_detail : string :=
  "File must be in Documents, Downloads, Desktop, or github directory".

(** [any(file_path.startswith(d) for d in allowed_dirs)] (line 145) *)
Definition under_allowed (env : Env) (p : string) : bool :=
  existsb (fun d => startswith p d) (allowed_dirs env).

(** [normalize_path(file_path)] (lines 125-151) *)
Definition normalize_path (env : Env) (file_path : string) : res string :=
  let file_path := expandvars (environ env) file_path in
  (file_path <- (if negb (isabs file_path) then abspath env file_path
                 else Ok file_path) ;;
   let file_path := normpath file_path in
   if negb (under_allowed env file_path)
   then Raise (HTTPException 403 denied_detail)
   else Ok file_path)%py.

(** ** The validator of the spec (section 4.1) *)

(** Steps 1-3: expand, make absolute against the working directory,
    normalise once. *)
Definition canonical (env : Env) (raw : string) : res string :=
  let e := expandvars (environ env) raw in
  if isabs e then Ok (normpath e)
  else match cwd env with
       | Some c => Ok (normpath (join c e))
       | None => Raise FileNotFoundError
       end.

(** Step 4: accept the canonical path when some allowed directory is a
    prefix of it, reject with [AccessDenied] (status 403) otherwise; a
    failure of step 2 is passed on. *)
Inductive validate_spec (env : Env) (raw : string) : res string -> Prop :=
| vs_accept q :
    canonical env raw = Ok q ->
    Exists (fun d => startswith q d = true) (allowed_dirs env) ->
    validate_spec env raw (Ok q)
| vs_deny q :
    canonical env raw = Ok q ->
    Forall (fun d => startswith q d = false) (allowed_dirs env) ->
    validate_spec env raw (Raise (HTTPException 403 denied_detail))
| vs_no_cwd e :
    canonical env raw = Raise e ->
    validate_spec env raw (Raise e).

(** The containment the spec asks for (section 4.1, edge cases): [q] is
    the directory [d] itself or below it, on a separator boundary. *)
Definition within_dir (d q : string) : bool :=
  bool_decide (q = d) || startswith q (d ++ "/").

(** [os.getcwd()] returns an absolute path. *)
Definition cwd_absolute (env : Env) : Prop :=
  forall c, cwd env = Some c -> isabs c = true.

(** A host whose user is [alice], working in [/srv]. *)
Definition alice_env : Env :=
  mkEnv (<["HOME" := "/home/alice"]> ∅) (Some "/srv") None ∅.

(** ** Lemmas *)

Lemma under_allowed_Exists env p :
  under_allowed env p = true <-> Exists (fun d => startswith p d = true) (allowed_dirs env).
Proof. apply existsb_true_Exists. Qed.

Lemma under_allowed_Forall env p :
  under_allowed env p = false <-> Forall (fun d => startswith p d = false) (allowed_dirs env).
Proof. apply existsb_false_Forall. Qed.

(** The code normalises twice when the path is relative ([abspath]
    already calls [normpath]); by idempotence this is the canonical path
    of the spec. *)
Lemma normalize_path_canonical env raw :
  normalize_path env raw =
    (q <- canonical env raw ;;
     if negb (under_allowed env q) then Raise (HTTPException 403 denied_detail)
     else Ok q)%py.
Proof.
  unfold normalize_path, canonical, abspath.
  destruct (isabs (expandvars (environ env) raw)); simpl; [done|].
  destruct (cwd env); simpl; [|done].
  by rewrite normpath_idempotent.
Qed.

Lemma isabs_app p s : isabs p = true -> isabs (p ++ s) = true.
Proof.
  unfold isabs, startswith. intros Hp. apply prefix_iff in Hp as [t ->].
  rewrite append_assoc. apply prefix_app.
Qed.

Lemma join_isabs c e : isabs c = true -> isabs (join c e) = true.
Proof.
  intros Hc. unfold join.
  destruct (startswith e "/") eqn:He; [done|].
  destruct (_ || _); apply isabs_app, Hc.
Qed.

Lemma canonical_isabs env raw q :
  cwd_absolute env -> canonical env raw = Ok q -> isabs q = true.
Proof.
  intros Hcwd. unfold canonical.
  destruct (isabs _) eqn:Habs.
  - intros [= <-]. by apply normpath_isabs.
  - destruct (cwd env) as [c|] eqn:Hc; [|discriminate].
    intros [= <-]. by apply normpath_isabs, join_isabs, Hcwd.
Qed.

Lemma canonical_normal env raw q :
  canonical env raw = Ok q -> normpath q = q.
Proof.
  unfold canonical. destruct (isabs _); [intros [= <-]; apply normpath_idempotent|].
  destruct (cwd env); [intros [= <-]; apply normpath_idempotent | discriminate].
Qed.

(** [normalize_path] raises only its 403, or the [FileNotFoundError] of
    [os.getcwd()]. *)
Lemma normalize_path_Raise_inv env raw e :
  normalize_path env raw = Raise e ->
  e = HTTPException 403 denied_detail \/ e = FileNotFoundError.
Proof.
  rewrite normalize_path_canonical. unfold canonical.
  destruct (isabs _); simpl; [|destruct (cwd env); simpl; [|intros [= <-]; by right]];
    destruct (under_allowed _ _); simpl; try discriminate; intros [= <-]; by left.
Qed.

(** ** Theorems *)

Lemma normalize_path_Ok_inv env raw q :
  normalize_path env raw = Ok q ->
  canonical env raw = Ok q /\ Exists (fun d => startswith q d = true) (allowed_dirs env).
Proof.
  rewrite normalize_path_canonical.
  destruct (canonical env raw) as [q'|e]; simpl; [|discriminate].
  destruct (under_allowed env q') eqn:Hu; simpl; [|discriminate].
  intros [= <-]. split; [done|]. by apply under_allowed_Exists.
Qed.

(** Functional behaviour of [normalize_path]: it returns [q] exactly
    when [q] is the expanded, absolute, normalised form of the input and
    some allowed directory is a string prefix of [q]. *)
Theorem normalize_path_ok env raw q :
  normalize_path env raw = Ok q <->
  canonical env raw = Ok q /\ Exists (fun d => startswith q d = true) (allowed_dirs env).
Proof.
  split; [apply normalize_path_Ok_inv|]. intros [Hc Hex].
  rewrite normalize_path_canonical, Hc. simpl.
  apply under_allowed_Exists in Hex. by rewrite Hex.
Qed.

(** (C4) Refinement: the translated [normalize_path] implements the
    validator of the spec on every input: it accepts, rejects with 403,
    or passes on the failure of [os.getcwd()] exactly as
    [validate_spec] allows. *)
Theorem normalize_path_refines env raw :
  validate_spec env raw (normalize_path env raw).
Proof.
  rewrite normalize_path_canonical.
  destruct (canonical env raw) as [q|e] eqn:Hc; simpl; [|by constructor].
  destruct (under_allowed env q) eqn:Hu; simpl.
  - apply vs_accept; [done|]. by apply under_allowed_Exists.
  - eapply vs_deny; [done|]. by apply under_allowed_Forall.
Qed.

(** (C3) Confinement of validated paths: when [os.getcwd()] is absolute,
    every path [normalize_path] returns starts with an allowed directory,
    is absolute, is its own normal form, and has no [.] or [..] segment. *)
Theorem normalize_path_confined env raw q :
  cwd_absolute env -> normalize_path env raw = Ok q ->
  Exists (fun d => startswith q d = true) (allowed_dirs env) /\
  isabs q = true /\ normpath q = q /\
  Forall (fun c => c <> "." /\ c <> "..") (split_on slash q).
Proof.
  intros Hcwd Hok. apply normalize_path_Ok_inv in Hok as [Hc Hex].
  pose proof (canonical_isabs _ _ _ Hcwd Hc) as Habs.
  pose proof (canonical_normal _ _ _ Hc) as Hn.
  split; [done|]. split; [done|]. split; [done|].
  rewrite <- Hn. by apply normpath_no_dot_segments.
Qed.

(** (C5) The raw [startswith] test accepts sibling directories: for
    every allowed directory [d] and every absolute path in normal form
    without [$] that extends [d] by a character other than [/] (such as
    [~/Documents2/notes.txt] for [~/Documents]), [normalize_path]
    accepts the path unchanged, although it is not inside [d] on a
    separator boundary. *)
Theorem sibling_directory_accepted env d x rest :
  In d (allowed_dirs env) -> x <> "/"%char ->
  str_mem "$" (d ++ String x rest) = false ->
  isabs (d ++ String x rest) = true -> normpath (d ++ String x rest) = d ++ String x rest ->
  normalize_path env (d ++ String x rest) = Ok (d ++ String x rest) /\
  within_dir d (d ++ String x rest) = false.
Proof.
  intros Hd Hx Hdol Habs Hn. split.
  - unfold normalize_path. rewrite expandvars_no_dollar by done.
    rewrite Habs. simpl. rewrite Hn.
    replace (under_allowed env _) with true; [done|]. symmetry.
    apply under_allowed_Exists, Exists_exists. exists d. split; [by apply list_elem_of_In|].
    unfold startswith. apply prefix_app.
  - unfold within_dir, startswith. rewrite prefix_app_cancel.
    rewrite bool_decide_false.
    + rewrite prefix_cons_cons. by destruct (ascii_dec "/" x) as [<-|].
    + intros Heq. apply (f_equal String.length) in Heq.
      rewrite length_append in Heq. simpl in Heq. lia.
Qed.

(** (C6) The allowed directories are computed from [$HOME] at each call
    of [normalize_path] (lines 138-143), not fixed at start-up: with
    [HOME] set to [h] they are [h] without its trailing slashes followed
    by [/Documents], [/Downloads], [/Desktop] and [/github], so a change
    of [HOME] while the server runs moves them. *)
Theorem allowed_dirs_home env h :
  environ env !! "HOME" = Some h ->
  allowed_dirs env =
    map (fun n => rstrip_char slash h ++ "/" ++ n) ["Documents"; "Downloads"; "Desktop"; "github"].
Proof. intros Hh. unfold allowed_dirs. by rewrite !(expanduser_home _ h). Qed.

Lemma alice_cwd_absolute : cwd_absolute alice_env.
Proof. intros c [= <-]. reflexivity. Qed.

(** [$HOME/Documents/../Desktop/./todo.txt] is expanded, normalised and
    accepted; the witness of (C3). *)
Lemma normalize_path_confined_witness :
  normalize_path alice_env "$HOME/Documents/../Desktop/./todo.txt"
    = Ok "/home/alice/Desktop/todo.txt" /\
  (Exists (fun d => startswith "/home/alice/Desktop/todo.txt" d = true)
     (allowed_dirs alice_env) /\
   isabs "/home/alice/Desktop/todo.txt" = true /\
   normpath "/home/alice/Desktop/todo.txt" = "/home/alice/Desktop/todo.txt" /\
   Forall (fun c => c <> "." /\ c <> "..") (split_on slash "/home/alice/Desktop/todo.txt")).
Proof.
  assert (H : normalize_path alice_env "$HOME/Documents/../Desktop/./todo.txt"
                = Ok "/home/alice/Desktop/todo.txt") by (vm_compute; reflexivity).
  split; [exact H|].
  exact (normalize_path_confined alice_env _ _ alice_cwd_absolute H).
Defined.

(** The witness of (C5): [/home/alice/Documents2/notes.txt]. *)
Lemma sibling_directory_accepted_witness :
  normalize_path alice_env ("/home/alice/Documents" ++ String "2" "/notes.txt")
    = Ok ("/home/alice/Documents" ++ String "2" "/notes.txt") /\
  within_dir "/home/alice/Documents" ("/home/alice/Documents" ++ String "2" "/notes.txt")
    = false.
Proof.
  apply (sibling_directory_accepted alice_env "/home/alice/Documents" "2" "/notes.txt");
    vm_compute; [left; reflexivity|congruence|reflexivity..].
Defined.

(** The witness of (C6): Alice's home moved to [/data/alice/]. *)
Lemma allowed_dirs_home_witness :
  allowed_dirs (mkEnv (<["HOME" := "/data/alice/"]> ∅) (Some "/srv") None ∅) =
    ["/data/alice/Documents"; "/data/alice/Downloads"; "/data/alice/Desktop";
     "/data/alice/github"].
Proof. rewrite (allowed_dirs_home _ "/data/alice/"); reflexivity. Defined.

End PathValidator.
