(* ===== verification/Codecs.v ===== *)
(** * Text decoding: the codecs [read_file] tries, and universal newlines

    [read_file] (src/main.py 186-195) opens the file in text mode with
    the encodings [utf-8], [latin-1] and [cp1252] in turn.  A text-mode
    read decodes all the bytes with the codec (strictly: an invalid
    sequence raises [UnicodeDecodeError]) and then translates [\r\n] and
    a lone [\r] into [\n] (universal newlines, the default of [open]).
    This file translates the three decoders of CPython, the UTF-8
    encoder used to state round trips, and the newline translation.

    Bytes are [Z] values in [0, 256); text is a list of code points.
    The UTF-8 decoder follows [Objects/stringlib/codecs.h]: the lead
    byte selects the length, continuation bytes are [0x80..0xBF], and
    the second byte is further restricted after [E0], [ED], [F0], [F4]
    (no overlong forms, no surrogates, nothing above [U+10FFFF]).  The
    main results: decoding inverts encoding on scalar values, and every
    successful decode is the encoding of its result, so the decoder
    accepts exactly the encodings of scalar-value strings. *)

From Stdlib Require Import String ZArith Lia.
From stdpp Require Import base list.
From S2P Require Import Prelude.

Module Codecs.
Open Scope Z_scope.

(** ** Decoders *)

Definition is_cont (b : Z) : bool := (0x80 <=? b) && (b <=? 0xBF).

(** Strict UTF-8 decoding of a whole byte string *)
Fixpoint utf8_decode (bs : list Z) : option (list Z) :=
  match bs with
  | [] => Some []
  | b0 :: r0 =>
    if b0 <? 0x80 then cons b0 <$> utf8_decode r0
    else if b0 <? 0xC2 then None
    else if b0 <? 0xE0 then
      match r0 with
      | b1 :: r1 =>
          if is_cont b1
          then cons (Z.shiftl b0 6 + b1 - (Z.shiftl 0xC0 6 + 0x80)) <$> utf8_decode r1
          else None
      | [] => None
      end
    else if b0 <? 0xF0 then
      match r0 with
      | b1 :: b2 :: r2 =>
          if is_cont b1 && is_cont b2 &&
             negb (if b0 =? 0xE0 then b1 <? 0xA0 else (b0 =? 0xED) && (0xA0 <=? b1))
          then cons (Z.shiftl b0 12 + Z.shiftl b1 6 + b2
                     - (Z.shiftl 0xE0 12 + Z.shiftl 0x80 6 + 0x80)) <$> utf8_decode r2
          else None
      | _ => None
      end
    else if b0 <? 0xF5 then
      match r0 with
      | b1 :: b2 :: b3 :: r3 =>
          if is_cont b1 && is_cont b2 && is_cont b3 &&
             negb (if b0 =? 0xF0 then b1 <? 0x90 else (b0 =? 0xF4) && (0x90 <=? b1))
          then cons (Z.shiftl b0 18 + Z.shiftl b1 12 + Z.shiftl b2 6 + b3
                     - (Z.shiftl 0xF0 18 + Z.shiftl 0x80 12 + Z.shiftl 0x80 6 + 0x80))
                 <$> utf8_decode r3
          else None
      | _ => None
      end
    else None
  end.

(** [latin-1] maps byte [b] to code point [b]: it never fails. *)
Definition latin1_decode (bs : list Z) : option (list Z) := Some bs.

(** The [cp1252] table for [0x80..0x9F] ([encodings/cp1252.py]); the five
    undefined bytes [81 8D 8F 90 9D] have no entry. *)
Definition cp1252_high : list (option Z) :=
  [Some 0x20AC; None; Some 0x201A; Some 0x0192; Some 0x201E; Some 0x2026;
   Some 0x2020; Some 0x2021; Some 0x02C6; Some 0x2030; Some 0x0160;
   Some 0x2039; Some 0x0152; None; Some 0x017D; None;
   None; Some 0x2018; Some 0x2019; Some 0x201C; Some 0x201D; Some 0x2022;
   Some 0x2013; Some 0x2014; Some 0x02DC; Some 0x2122; Some 0x0161;
   Some 0x203A; Some 0x0153; None; Some 0x017E; Some 0x0178].

Definition cp1252_byte (b : Z) : option Z :=
  if (0x80 <=? b) && (b <? 0xA0)
  then mjoin (cp1252_high !! Z.to_nat (b - 0x80))
  else Some b.

Definition cp1252_decode (bs : list Z) : option (list Z) :=
  mapM cp1252_byte bs.

(** Universal newlines: [\r\n] and a lone [\r] become [\n]. *)
Fixpoint translate_newlines (cs : list Z) : list Z :=
  match cs with
  | [] => []
  | c :: r =>
      if c =? 13 then
        match r with
        | d :: r' => if d =? 10 then 10 :: translate_newlines r'
                     else 10 :: translate_newlines r
        | [] => [10]
        end
      else c :: translate_newlines r
  end.

(** ** The UTF-8 encoder ([str.encode('utf-8')]) *)

Definition utf8_encode_char (c : Z) : list Z :=
  if c <? 0x80 then [c]
  else if c <? 0x800 then [0xC0 + Z.shiftr c 6; 0x80 + Z.land c 0x3F]
  else if c <? 0x10000 then
    [0xE0 + Z.shiftr c 12; 0x80 + Z.land (Z.shiftr c 6) 0x3F; 0x80 + Z.land c 0x3F]
  else
    [0xF0 + Z.shiftr c 18; 0x80 + Z.land (Z.shiftr c 12) 0x3F;
     0x80 + Z.land (Z.shiftr c 6) 0x3F; 0x80 + Z.land c 0x3F].

Definition utf8_encode (cs : list Z) : list Z := cs ≫= utf8_encode_char.

(** A Unicode scalar value: a code point that is not a surrogate. *)
Definition scalar (c : Z) : Prop := 0 <= c < 0x110000 /\ ~ (0xD800 <= c < 0xE000).

Definition byte (b : Z) : Prop := 0 <= b < 256.

(** ** Automation for byte arithmetic *)

(** Decide every comparison of the goal, discarding the impossible
    branches with [lia]. *)
Ltac zcmp :=
  repeat match goal with
  | |- context [?a <? ?b] => destruct (Z.ltb_spec a b); try (exfalso; lia)
  | |- context [?a <=? ?b] => destruct (Z.leb_spec a b); try (exfalso; lia)
  | |- context [?a =? ?b] => destruct (Z.eqb_spec a b); try (exfalso; lia)
  end.

Lemma land_3f x : Z.land x 0x3F = x mod 64.
Proof. change 0x3F with (Z.ones 6). by rewrite Z.land_ones. Qed.

(** Close an equation [utf8_encode_char c ++ r = bytes] once the branch
    of the encoder is known from the hypotheses. *)
Ltac solve_encode :=
  unfold utf8_encode_char; rewrite ?land_3f, ?Z.shiftr_div_pow2 by lia;
  zcmp; simpl; repeat f_equal; Z.div_mod_to_equations; lia.

(** ** UTF-8: decoding inverts encoding *)

Lemma utf8_encode_cons c cs : utf8_encode (c :: cs) = utf8_encode_char c ++ utf8_encode cs.
Proof. reflexivity. Qed.

Lemma utf8_encode_char_length c : (1 <= length (utf8_encode_char c))%nat.
Proof. unfold utf8_encode_char. zcmp; simpl; lia. Qed.

Lemma utf8_decode_encode_char c rest :
  scalar c -> utf8_decode (utf8_encode_char c ++ rest) = cons c <$> utf8_decode rest.
Proof.
  intros [Hc Hs]. unfold utf8_encode_char.
  rewrite !land_3f, !Z.shiftr_div_pow2 by lia.
  zcmp; Z.div_mod_to_equations; simpl; unfold is_cont; zcmp; simpl;
  rewrite ?Z.shiftl_mul_pow2 by lia; do 2 f_equal; lia.
Qed.

(** One step of the decoder: a successful decode starts with the
    encoding of a scalar value. *)
Lemma utf8_decode_cons_inv b0 r0 cs :
  byte b0 -> utf8_decode (b0 :: r0) = Some cs ->
  exists c r cs', cs = c :: cs' /\ scalar c /\
    b0 :: r0 = utf8_encode_char c ++ r /\ utf8_decode r = Some cs'.
Proof.
  intros Hb0. unfold byte in Hb0. simpl. unfold is_cont.
  zcmp; try (intros; discriminate);
  repeat match goal with
  | |- match ?r with [] => _ | _ :: _ => _ end = _ -> _ =>
      destruct r; [intros; discriminate|]
  end;
  zcmp; cbn; try (intros; discriminate);
  match goal with
  | |- _ <$> utf8_decode ?r = Some _ -> _ =>
      destruct (utf8_decode r) as [cs'|] eqn:E; intros [= <-]; eexists _, r, cs'
  end;
  (split; [reflexivity|]); rewrite ?Z.shiftl_mul_pow2 by lia;
  (split; [unfold scalar; lia|]); (split; [|done]);
  solve_encode.
Qed.

(** Decoding the encoding of scalar values gives them back. *)
Theorem utf8_decode_encode cs :
  Forall scalar cs -> utf8_decode (utf8_encode cs) = Some cs.
Proof.
  induction 1 as [|c cs Hc _ IH]; [done|].
  by rewrite utf8_encode_cons, utf8_decode_encode_char, IH.
Qed.

(** A successful decode is the encoding of its result, and yields scalar
    values only: the decoder accepts exactly the encodings. *)
Theorem utf8_encode_decode bs cs :
  Forall byte bs -> utf8_decode bs = Some cs ->
  utf8_encode cs = bs /\ Forall scalar cs.
Proof.
  remember (length bs) as n eqn:Hn. assert (Hle : (length bs <= n)%nat) by lia. clear Hn.
  revert bs cs Hle. induction n as [|n IH]; intros bs cs Hle Hb Hd.
  - destruct bs; [|simpl in Hle; lia]. by injection Hd as <-.
  - destruct bs as [|b0 r0]; [by injection Hd as <-|].
    apply Forall_cons in Hb as [Hb0 Hr0].
    destruct (utf8_decode_cons_inv b0 r0 cs Hb0 Hd) as (c & r & cs' & -> & Hc & Heq & Hr).
    pose proof (utf8_encode_char_length c) as Hlen.
    assert (Hrb : Forall byte r).
    { assert (Forall byte (utf8_encode_char c ++ r)) as Hall by (rewrite <- Heq; by constructor).
      by apply Forall_app in Hall as [_ ?]. }
    assert (length r <= n)%nat.
    { apply (f_equal length) in Heq. rewrite length_app in Heq. simpl in Heq, Hle. lia. }
    destruct (IH r cs' ltac:(lia) Hrb Hr) as [Henc Hs].
    split; [by rewrite utf8_encode_cons, Henc|]. by constructor.
Qed.

(** ASCII bytes decode to themselves. *)
Lemma utf8_decode_ascii bs :
  Forall (fun b => 0 <= b < 0x80) bs -> utf8_decode bs = Some bs.
Proof.
  induction 1 as [|b bs Hb _ IH]; [done|]. simpl. zcmp. by rewrite IH.
Qed.

(** ** Latin-1 and the newline translation *)

Lemma latin1_decode_total bs : latin1_decode bs = Some bs.
Proof. reflexivity. Qed.

(** Text without a carriage return is left as it is. *)
Lemma translate_newlines_no_cr cs :
  Forall (fun c => c <> 13) cs -> translate_newlines cs = cs.
Proof.
  induction 1 as [|c cs Hc _ IH]; [done|]. simpl. zcmp. by rewrite IH.
Qed.

(** The translation leaves no carriage return. *)
Lemma translate_newlines_no_cr_out cs :
  Forall (fun c => c <> 13) (translate_newlines cs).
Proof.
  remember (length cs) as n eqn:Hn. assert (Hle : (length cs <= n)%nat) by lia. clear Hn.
  revert cs Hle. induction n as [|n IH]; intros [|c r] Hle; simpl in *;
    try constructor; try lia.
  destruct (Z.eqb_spec c 13); [|constructor; [done | apply IH; lia]].
  destruct r as [|d r']; [by repeat constructor|].
  simpl in Hle. destruct (Z.eqb_spec d 10); constructor; try lia; apply IH; simpl; lia.
Qed.

End Codecs.
