(* ===== verification/FileReader.v ===== *)
(** * The file reader: [read_file] of [src/main.py] (lines 153-209)

    [read_file] validates the path with [normalize_path], makes it
    absolute again, asks the global [is_path_allowed], checks that the
    path exists and is a regular file, and decodes the file with the
    encodings [utf-8], [latin-1], [cp1252] in turn.  Every exception but
    an [HTTPException] is turned into an [HTTPException] 500.

    [is_path_allowed] is defined nowhere in the repository.  Python
    looks a global name up when the call runs, so the model takes the
    module's globals as a record [Globals] in which the name may be
    bound or not; [module_init] builds the globals that importing
    [main.py] produces, where it is unbound.  The theorems show that with
    those globals every validated read ends in a 500 caused by a
    [NameError], and, for globals where the name is bound to a
    predicate, what the function was meant to do: 404, 400, and the
    decoded text (never the "undecodable" 400, since [latin-1] accepts
    every byte string; never a carriage return, since text mode
    translates newlines).

    The file system is a finite map from the absolute lexical path to a
    node (symbolic links are not modelled: the code does not resolve
    them either). *)

From Stdlib Require Import String Ascii ZArith Lia.
From stdpp Require Import base list strings gmap.
From S2P Require Import Prelude PosixPath PathValidator Codecs.

Open Scope string_scope.

Module FileReader.
Import PosixPath PathValidator Codecs.

(** ** The module state *)

(** What [os.stat] finds at a path: a directory, a regular file (with
    whether the process may open it, and its bytes), or another kind of
    file (a device, a FIFO, a socket). *)
Inductive node : Type :=
| Dir
| Regular (readable : bool) (contents : list Z)
| Special.

(** The globals of [main.py] that [read_file] reads: the list built at
    import, and the binding of the name [is_path_allowed] if any. *)
Record Globals : Type := mkGlobals {
  ALLOWED_BASE_DIRS : list string;
  is_path_allowed : option (string -> bool)
}.

(** [str(Path(h) / name)]: [pathlib] keeps one or two leading slashes,
    drops empty and [.] parts and joins the rest with [/]. *)
Definition pathlib_join_str (h name : string) : string :=
  initial_slashes h ++
  join_with "/" (filter (fun x => x <> "" /\ x <> ".") (split_on slash h) ++ [name]).

(** [Path.home()]: [expanduser("~")], or [RuntimeError] when it is left
    unexpanded. *)
Definition path_home (env : Env) : res string :=
  let h := expanduser env "~" in
  if startswith h "~" then Raise (RuntimeError "Could not determine home directory.")
  else Ok h.

(** Importing [main.py]: [ALLOWED_BASE_DIRS] (lines 29-34); no binding of
    [is_path_allowed] is made anywhere. *)
Definition module_init (env : Env) : res Globals :=
  (h <- path_home env ;;
   Ok (mkGlobals (map (pathlib_join_str h) ["Documents"; "Downloads"; "Desktop"; "github"])
                 None))%py.

(** ** The translation *)

Inductive encoding : Type := Utf8 | Latin1 | Cp1252.

(** [encodings = ['utf-8', 'latin-1', 'cp1252']] (line 187) *)
Definition encodings : list encoding := [Utf8; Latin1; Cp1252].

Definition decode (e : encoding) : list Z -> option (list Z) :=
  match e with
  | Utf8 => utf8_decode
  | Latin1 => latin1_decode
  | Cp1252 => cp1252_decode
  end.

(** The loop of lines 188-195: the first encoding whose strict decode
    succeeds gives the text, read in text mode (universal newlines); a
    [UnicodeDecodeError] goes on to the next one. *)
Fixpoint try_encodings (es : list encoding) (bs : list Z) : option (list Z) :=
  match es with
  | [] => None
  | e :: es' =>
      match decode e bs with
      | Some t => Some (translate_newlines t)
      | None => try_encodings es' bs
      end
  end.

Definition not_allowed_detail (g : Globals) (fp : string) : string :=
  "Access to " ++ fp ++ " is not allowed. File must be in one of these directories:"
  ++ nl ++ join_with nl (ALLOWED_BASE_DIRS g).

Definition not_found_detail (fp : string) : string :=
  "File not found: " ++ fp ++ nl ++ "Please check:" ++ nl ++ "1. The file exists"
  ++ nl ++ "2. The path is correct" ++ nl ++ "3. You have permission to access it".

Definition not_a_file_detail (fp : string) : string := "Path is not a file: " ++ fp.

Definition undecodable_detail (fp : string) : string :=
  "Could not read file " ++ fp ++ " with any of the supported encodings".

Definition error_detail (fp : string) (e : exn) : string :=
  "Error reading file " ++ fp ++ ": " ++ str_exn e.

(** Lines 160-200, after the path was normalised to [fp]. *)
Definition read_checked (g : Globals) (env : Env) (fs : gmap string node) (fp : string)
    : res (list Z) :=
  (abs_path <- abspath env fp ;;
   match is_path_allowed g with
   | None => Raise (NameError "is_path_allowed")
   | Some allowed =>
       if negb (allowed abs_path)
       then Raise (HTTPException 403 (not_allowed_detail g fp))
       else
         match fs !! abs_path with
         | None => Raise (HTTPException 404 (not_found_detail fp))
         | Some (Regular readable bs) =>
             if negb readable then Raise (PermissionError abs_path)
             else match try_encodings encodings bs with
                  | Some t => Ok t
                  | None => Raise (HTTPException 400 (undecodable_detail fp))
                  end
         | Some _ => Raise (HTTPException 400 (not_a_file_detail fp))
         end
   end)%py.

(** [read_file(file_path)] (lines 153-209).  The handler of line 204
    reports the variable [file_path]: the normalised path once line 157
    has run, the argument when [normalize_path] itself failed. *)
Definition read_file (g : Globals) (env : Env) (fs : gmap string node) (file_path : string)
    : res (list Z) :=
  let '(fp, r) :=
    match normalize_path env file_path with
    | Ok fp => (fp, read_checked g env fs fp)
    | Raise e => (file_path, Raise e)
    end in
  reraise_http_else r (fun e => Raise (HTTPException 500 (error_detail fp e))).

(** A binding of [is_path_allowed]: the globals [g] with the name bound
    to [allow]. *)
Definition bind_is_path_allowed (g : Globals) (allow : string -> bool) : Globals :=
  mkGlobals (ALLOWED_BASE_DIRS g) (Some allow).

(** Alice's files: a CRLF text file, a Latin-1 file, a directory. *)
Definition alice_fs : gmap string node :=
  <["/home/alice/Documents/crlf.txt" := Regular true [104; 105; 13; 10; 33]]>
  (<["/home/alice/Documents/cafe.txt" := Regular true [99; 97; 102; 0xE9]]>
  (<["/home/alice/Documents/notes" := Dir]> ∅)).

(** ** Lemmas *)

Lemma module_init_unbound env g :
  module_init env = Ok g -> is_path_allowed g = None.
Proof.
  unfold module_init. destruct (path_home env); simpl; [|discriminate].
  by intros [= <-].
Qed.

(** The encoding loop never fails and never reaches [cp1252]: the text
    is the UTF-8 decode when it succeeds, else the Latin-1 one. *)
Lemma try_encodings_eq bs :
  try_encodings encodings bs =
    Some (translate_newlines (match utf8_decode bs with Some t => t | None => bs end)).
Proof. simpl. by destruct (utf8_decode bs). Qed.

Lemma read_file_validated g env fs raw q :
  normalize_path env raw = Ok q ->
  read_file g env fs raw =
    reraise_http_else (read_checked g env fs q)
      (fun e => Raise (HTTPException 500 (error_detail q e))).
Proof. intros Hn. unfold read_file. by rewrite Hn. Qed.

Lemma read_file_rejected g env fs raw e :
  normalize_path env raw = Raise e ->
  read_file g env fs raw =
    reraise_http_else (Raise e) (fun e => Raise (HTTPException 500 (error_detail raw e))).
Proof. intros Hn. unfold read_file. by rewrite Hn. Qed.

(** The second [abspath] of line 161 succeeds on a validated path. *)
Lemma normalize_path_abspath env raw q :
  normalize_path env raw = Ok q -> exists a, abspath env q = Ok a.
Proof.
  intros Hn. apply normalize_path_Ok_inv in Hn as [Hc _].
  unfold canonical in Hc. unfold abspath.
  destruct (isabs (expandvars (environ env) raw)) eqn:Habs.
  - injection Hc as <-. rewrite normpath_isabs by done. by eexists.
  - destruct (cwd env) as [c|]; [|discriminate].
    destruct (negb (isabs q)); by eexists.
Qed.

(** ... and gives the path back when the working directory is absolute. *)
Lemma normalize_path_abspath_abs env raw q :
  cwd_absolute env -> normalize_path env raw = Ok q -> abspath env q = Ok q.
Proof.
  intros Hcwd Hn. apply normalize_path_Ok_inv in Hn as [Hc _].
  pose proof (canonical_isabs _ _ _ Hcwd Hc) as Habs.
  pose proof (canonical_normal _ _ _ Hc) as Hq.
  unfold abspath. by rewrite Habs, Hq.
Qed.

(** Lines 160-200 when [is_path_allowed] is bound to [allow] and the
    path is its own [abspath]. *)
Lemma read_checked_bound g allow env fs q :
  is_path_allowed g = Some allow -> abspath env q = Ok q ->
  reraise_http_else (read_checked g env fs q)
    (fun e => Raise (HTTPException 500 (error_detail q e))) =
    if negb (allow q) then Raise (HTTPException 403 (not_allowed_detail g q))
    else match fs !! q with
         | None => Raise (HTTPException 404 (not_found_detail q))
         | Some (Regular true bs) =>
             Ok (translate_newlines (match utf8_decode bs with Some t => t | None => bs end))
         | Some (Regular false _) =>
             Raise (HTTPException 500 (error_detail q (PermissionError q)))
         | Some _ => Raise (HTTPException 400 (not_a_file_detail q))
         end.
Proof.
  intros Hg Ha. unfold read_checked. rewrite Ha. simpl.
  rewrite Hg. destruct (allow q); simpl; [|done].
  destruct (fs !! q) as [[|[|] bs|]|]; rewrite ?try_encodings_eq; simpl; try done.
  by destruct (utf8_decode bs).
Qed.

(** Whatever the globals, a successful [read_checked] returns a text
    that went through the newline translation. *)
Lemma read_checked_ok g env fs q t :
  read_checked g env fs q = Ok t -> exists u, t = translate_newlines u.
Proof.
  unfold read_checked. destruct (abspath env q) as [a|]; cbn [bind]; [|discriminate].
  destruct (is_path_allowed g) as [allow|]; [|discriminate].
  destruct (negb (allow a)); [discriminate|].
  destruct (fs !! a) as [[|[|] bs|]|]; try discriminate.
  rewrite try_encodings_eq. intros [= <-]. by eexists.
Qed.

Lemma abspath_Raise_inv env p e : abspath env p = Raise e -> e = FileNotFoundError.
Proof.
  unfold abspath. destruct (negb (isabs p)); [|discriminate].
  destruct (cwd env); [discriminate|]. by intros [= <-].
Qed.

(** With [is_path_allowed] unbound, the first lookup of the name raises. *)
Lemma read_file_unbound g env fs raw q :
  is_path_allowed g = None -> normalize_path env raw = Ok q ->
  read_file g env fs raw =
    Raise (HTTPException 500 (error_detail q (NameError "is_path_allowed"))).
Proof.
  intros Hg Hn. rewrite (read_file_validated _ _ _ _ _ Hn).
  destruct (normalize_path_abspath _ _ _ Hn) as [a Ha].
  unfold read_checked. rewrite Ha. simpl. by rewrite Hg.
Qed.

(** With [is_path_allowed] unbound, [read_file] never returns a text. *)
Lemma read_file_unbound_not_ok g env fs raw t :
  is_path_allowed g = None -> read_file g env fs raw <> Ok t.
Proof.
  intros Hg. destruct (normalize_path env raw) as [q|e] eqn:Hn.
  - by rewrite (read_file_unbound _ _ _ _ _ Hg Hn).
  - rewrite (read_file_rejected _ _ _ _ _ Hn). by destruct e.
Qed.

Lemma read_checked_Raise g env fs q e :
  read_checked g env fs q = Raise e ->
  (exists d, e = HTTPException 400 d \/ e = HTTPException 403 d \/ e = HTTPException 404 d)
  \/ ~ (exists c d, e = HTTPException c d).
Proof.
  unfold read_checked.
  destruct (abspath env q) as [a|e'] eqn:Ha; cbn [bind].
  - destruct (is_path_allowed g) as [allow|];
      [|intros [= <-]; right; intros (? & ? & ?); discriminate].
    destruct (negb (allow a)); [intros [= <-]; left; eexists; right; left; reflexivity|].
    destruct (fs !! a) as [[|[|] bs|]|]; rewrite ?try_encodings_eq; simpl;
      intros H; inversion H; subst; clear H;
      first [ left; eexists; first [left; reflexivity | right; right; reflexivity]
            | right; intros (? & ? & ?); discriminate ].
  - intros [= <-]. rewrite (abspath_Raise_inv _ _ _ Ha). right.
    intros (? & ? & ?); discriminate.
Qed.

Lemma http_status_in c d :
  (c = 400 \/ c = 403 \/ c = 404 \/ c = 500)%Z ->
  exists c' d', HTTPException c d = HTTPException c' d' /\
    (c' = 400 \/ c' = 403 \/ c' = 404 \/ c' = 500)%Z.
Proof. intros Hc. by exists c, d. Qed.

(** [read_file] raises [HTTPException]s only, with the status 400, 403,
    404 or 500. *)
Lemma read_file_Raise g env fs raw e :
  read_file g env fs raw = Raise e ->
  exists c d, e = HTTPException c d /\ (c = 400 \/ c = 403 \/ c = 404 \/ c = 500)%Z.
Proof.
  unfold read_file. destruct (normalize_path env raw) as [q|e'] eqn:Hn;
    cbv beta iota zeta.
  - destruct (read_checked g env fs q) as [t|e'] eqn:Hr; [discriminate|].
    destruct (read_checked_Raise _ _ _ _ _ Hr) as [[d [-> | [-> | ->]]] | Hnot];
      try (simpl; intros [= <-]; apply http_status_in; lia).
    destruct e' as [c d| | | | | | |]; simpl; intros [= <-];
      try (apply http_status_in; lia).
    exfalso. apply Hnot. by eexists _, _.
  - destruct (normalize_path_Raise_inv _ _ _ Hn) as [-> | ->]; simpl;
      intros [= <-]; apply http_status_in; lia.
Qed.

(** ** Theorems *)

(** (C1) [read_file] as the module defines it never returns a file: with
    the globals of the import, a path [normalize_path] accepts ends in a
    500 whose detail is the [NameError] of the undefined
    [is_path_allowed]; a rejected path keeps the validator's 403; any
    other failure of the validator becomes a 500 naming the argument. *)
Theorem read_file_as_imported env g fs raw :
  module_init env = Ok g ->
  read_file g env fs raw =
    match normalize_path env raw with
    | Ok q => Raise (HTTPException 500 (error_detail q (NameError "is_path_allowed")))
    | Raise (HTTPException c d) => Raise (HTTPException c d)
    | Raise e => Raise (HTTPException 500 (error_detail raw e))
    end.
Proof.
  intros Hinit. pose proof (module_init_unbound _ _ Hinit) as Hg.
  destruct (normalize_path env raw) as [q|e] eqn:Hn.
  - by apply read_file_unbound.
  - rewrite (read_file_rejected _ _ _ _ _ Hn). by destruct e.
Qed.

Section BoundGlobals.
Context (g : Globals) (allow : string -> bool) (Hg : is_path_allowed g = Some allow).
Context (env : Env) (Hcwd : cwd_absolute env) (fs : gmap string node).

(** (C9) Functional behaviour of [read_file] once [is_path_allowed] is
    bound: for a validated path [q], 403 when [allow q] is false, 404
    when nothing is at [q], the decoded text for a readable regular file
    (UTF-8 when the bytes are valid UTF-8, Latin-1 otherwise, newlines
    translated), a 500 for an unreadable one, and 400 for a directory or
    another kind of file. *)
Theorem read_file_bound raw q :
  normalize_path env raw = Ok q ->
  read_file g env fs raw =
    if negb (allow q) then Raise (HTTPException 403 (not_allowed_detail g q))
    else match fs !! q with
         | None => Raise (HTTPException 404 (not_found_detail q))
         | Some (Regular true bs) =>
             Ok (translate_newlines (match utf8_decode bs with Some t => t | None => bs end))
         | Some (Regular false _) =>
             Raise (HTTPException 500 (error_detail q (PermissionError q)))
         | Some _ => Raise (HTTPException 400 (not_a_file_detail q))
         end.
Proof.
  intros Hn. rewrite (read_file_validated _ _ _ _ _ Hn).
  apply read_checked_bound; [done|]. exact (normalize_path_abspath_abs _ _ _ Hcwd Hn).
Qed.

(** (C10) Round trip: a validated, allowed, readable file holding the
    UTF-8 encoding of a text of scalar values without carriage return is
    read back as exactly that text. *)
Theorem read_file_roundtrip raw q t :
  normalize_path env raw = Ok q -> allow q = true ->
  Forall scalar t -> Forall (fun c => c <> 13) t ->
  fs !! q = Some (Regular true (utf8_encode t)) ->
  read_file g env fs raw = Ok t.
Proof.
  intros Hn Ha Hs Hcr Hq. rewrite (read_file_validated _ _ _ _ _ Hn).
  rewrite (read_checked_bound _ _ _ _ _ Hg (normalize_path_abspath_abs _ _ _ Hcwd Hn)).
  rewrite Ha, Hq. simpl. rewrite utf8_decode_encode by done.
  by rewrite translate_newlines_no_cr.
Qed.

End BoundGlobals.

(** (C11) Whatever the globals, a text [read_file] returns holds no
    carriage return: text mode translates [\r\n] and [\r] into [\n], so
    a file with CRLF line ends is not read back byte for byte. *)
Theorem read_file_no_cr g env fs raw t :
  read_file g env fs raw = Ok t -> Forall (fun c => c <> 13) t.
Proof.
  unfold read_file. destruct (normalize_path env raw) as [q|e]; cbv beta iota zeta;
    [|by destruct e].
  destruct (read_checked g env fs q) as [t'|e] eqn:Hr; simpl.
  - intros [= <-]. destruct (read_checked_ok _ _ _ _ _ Hr) as [u ->].
    apply translate_newlines_no_cr_out.
  - by destruct e.
Qed.

(** (C12) The error "Could not read file ... with any of the supported
    encodings" (lines 197-200) is unreachable: [latin-1] decodes every
    byte string, so the loop never falls through. *)
Theorem read_file_never_undecodable g env fs raw fp :
  read_file g env fs raw <> Raise (HTTPException 400 (undecodable_detail fp)).
Proof.
  unfold read_file. destruct (normalize_path env raw) as [q|e] eqn:Hn; simpl.
  - unfold read_checked.
    destruct (abspath env q) as [a|e] eqn:Ha; cbn [bind];
      [|by rewrite (abspath_Raise_inv _ _ _ Ha)].
    destruct (is_path_allowed g) as [allow|]; [|done].
    destruct (negb (allow a)); [done|].
    destruct (fs !! a) as [[|[|] bs|]|]; rewrite ?try_encodings_eq; simpl; try done.
  - by destruct (normalize_path_Raise_inv _ _ _ Hn) as [-> | ->].
Qed.

(** The globals of the import on Alice's host. *)
Definition alice_imported : Globals :=
  mkGlobals ["/home/alice/Documents"; "/home/alice/Downloads";
             "/home/alice/Desktop"; "/home/alice/github"] None.

(** The same globals with [is_path_allowed] bound to the test of the
    validator. *)
Definition alice_bound : Globals := bind_is_path_allowed alice_imported (under_allowed alice_env).

(** The witness of (C1): reading Alice's [cafe.txt] with the globals of
    the import is a 500 with the [NameError]. *)
Lemma read_file_as_imported_witness :
  module_init alice_env = Ok alice_imported /\
  read_file alice_imported alice_env alice_fs "$HOME/Documents/cafe.txt" =
    Raise (HTTPException 500
      "Error reading file /home/alice/Documents/cafe.txt: name 'is_path_allowed' is not defined").
Proof.
  split; [reflexivity|].
  rewrite (read_file_as_imported alice_env alice_imported alice_fs _ eq_refl).
  vm_compute. reflexivity.
Defined.

(** The witness of (C9): with the name bound, the Latin-1 [cafe.txt]
    (its last byte is not valid UTF-8) is read with [latin-1]. *)
Lemma read_file_bound_witness :
  read_file alice_bound alice_env alice_fs "$HOME/Documents/cafe.txt" = Ok [99; 97; 102; 0xE9].
Proof.
  rewrite (read_file_bound alice_bound (under_allowed alice_env) eq_refl alice_env
             alice_cwd_absolute alice_fs "$HOME/Documents/cafe.txt"
             "/home/alice/Documents/cafe.txt" ltac:(vm_compute; reflexivity)).
  vm_compute. reflexivity.
Defined.

(** The witness of (C10): "café" stored as UTF-8 is read back. *)
Lemma read_file_roundtrip_witness :
  read_file alice_bound alice_env
    (<["/home/alice/Desktop/cafe.txt" := Regular true (utf8_encode [99; 97; 102; 0xE9])]> alice_fs)
    "/home/alice/Desktop/cafe.txt" = Ok [99; 97; 102; 0xE9].
Proof.
  apply (read_file_roundtrip alice_bound (under_allowed alice_env) eq_refl alice_env
           alice_cwd_absolute _ _ "/home/alice/Desktop/cafe.txt").
  - vm_compute. reflexivity.
  - vm_compute. reflexivity.
  - repeat constructor; unfold scalar; lia.
  - repeat constructor; lia.
  - vm_compute. reflexivity.
Defined.

(** The witness of (C11). *)
Lemma read_file_no_cr_witness :
  Forall (fun c => c <> 13) [104; 105; 10; 33].
Proof.
  apply (read_file_no_cr alice_bound alice_env alice_fs "/home/alice/Documents/crlf.txt").
  vm_compute. reflexivity.
Defined.

End FileReader.
