(* ===== verification/CountR.v ===== *)
(** * The character counter: [count_r] of [src/main.py] (lines 211-213)

    [count_r(text)] is [text.lower().count('r')].  The theorem gives its
    closed form: the occurrences of [r] plus those of [R], so lowering
    makes the count case-insensitive and counts no other letter.
    [py_lower_app] is shared with the dispatch of [process_request]. *)

From Stdlib Require Import String Ascii ZArith Lia.
From stdpp Require Import base list strings.
From S2P Require Import Prelude.

Open Scope string_scope.

Module CountR.

(** [count_r(text)] (lines 211-213) *)
Definition count_r (text : string) : nat := count_char "r"%char (py_lower text).

(** ** Lemmas *)

(** Exactly [r] and [R] lower to [r]. *)
Lemma lower_char_r (c : ascii) :
  (if decide (lower_char c = "r"%char) then 1 else 0) =
  (if decide (c = "r"%char) then 1 else 0) + (if decide (c = "R"%char) then 1 else 0).
Proof. destruct c as [[] [] [] [] [] [] [] []]; vm_compute; reflexivity. Qed.

Lemma py_lower_app (s t : string) : py_lower (s ++ t) = py_lower s ++ py_lower t.
Proof. induction s as [|x s IH]; simpl; [done|]. by rewrite IH. Qed.

(** ** Theorems *)

(** (C15) [count_r] counts the letters [r] and [R]: lowering first makes
    the count case-insensitive and counts nothing else. *)
Theorem count_r_spec (text : string) :
  count_r text = count_char "r"%char text + count_char "R"%char text.
Proof.
  unfold count_r. induction text as [|c s IH]; simpl; [done|].
  rewrite IH, lower_char_r. lia.
Qed.

End CountR.
