(* ===== verification/Dispatch.v ===== *)
(** * The HTTP handlers of [src/main.py]

    [process_request] (POST [/process], lines 220-250) picks a tool from
    the prompt: when the lowered prompt contains [read_file] it reads the
    file named after the first [read_file] of the prompt, else when it
    contains [count_r] it counts in the text after [count_r], else it
    answers that the tool is unknown.  Every exception becomes a 500.
    [execute_tool] (POST [/tools/{tool_name}], lines 252-282) calls a
    tool by name with its parameters; an [HTTPException] passes
    unchanged, any other exception becomes a 500.  The trivial routes
    (lines 52-96, 215-218) return constant JSON or echo the request.

    The schemas (lines 98-119) are records; JSON values are the
    inductive [json].  The handlers take the module globals, the process
    environment and the file system that [read_file] reads. *)

From Stdlib Require Import String Ascii ZArith Lia.
From stdpp Require Import base list strings gmap.
From S2P Require Import Prelude PosixPath PathValidator Codecs FileReader CountR.

Open Scope string_scope.

Module Dispatch.
Import PathValidator FileReader CountR.

(** ** Schemas *)

(** JSON values, as FastAPI parses and serialises them *)
#[warnings="-register-all"]
Inductive json : Type :=
| JNull
| JBool (b : bool)
| JNum (n : Z)
| JStr (s : string)
| JArr (l : list json)
| JObj (fields : list (string * json)).

(** [AgentRequest] (lines 102-105); the handlers read the prompt only. *)
Record AgentRequest : Type := mkAgentRequest {
  prompt : string;
  context : option (list string);
  parameters : option (list (string * json))
}.

(** [AgentResponse] (lines 107-109): the text, and the metadata the
    handlers fill with strings. *)
Record AgentResponse : Type := mkAgentResponse {
  response : list Z;
  metadata : option (list (string * string))
}.

(** [ToolRequest] (lines 98-100) *)
Record ToolRequest : Type := mkToolRequest {
  tool_request_name : string;
  tool_parameters : gmap string string
}.

Definition success_meta (tool : string) : option (list (string * string)) :=
  Some [("status", "success"); ("tool", tool)].

(** ** [process_request] (lines 220-250) *)

Definition process_request (g : Globals) (env : Env) (fs : gmap string node)
    (request : AgentRequest) : res AgentResponse :=
  except_all
    (if contains (py_lower (prompt request)) "read_file" then
       (file_path <- split_index1 (prompt request) "read_file" ;;
        result <- read_file g env fs (py_strip file_path) ;;
        Ok (mkAgentResponse result (success_meta "read_file")))%py
     else if contains (py_lower (prompt request)) "count_r" then
       (text <- split_index1 (prompt request) "count_r" ;;
        let count := count_r (py_strip text) in
        Ok (mkAgentResponse
              (str_cps ("Number of 'r' characters: " ++ z_to_str (Z.of_nat count)))
              (success_meta "count_r")))%py
     else
       Ok (mkAgentResponse
             (str_cps "Invalid tool request. Available tools: read_file, count_r")
             (Some [("status", "error"); ("error", "invalid_tool")])))
    (fun e => Raise (HTTPException 500 (str_exn e))).

(** ** [execute_tool] (lines 252-282) *)

(** [if not x]: a missing or empty parameter *)
Definition required (o : option string) : option string :=
  match o with
  | Some v => if bool_decide (v = "") then None else Some v
  | None => None
  end.

Definition execute_tool (g : Globals) (env : Env) (fs : gmap string node)
    (tool_name : string) (request : ToolRequest) : res AgentResponse :=
  reraise_http_else
    (if bool_decide (tool_name = "read_file") then
       match required (tool_parameters request !! "file_path") with
       | None => Raise (HTTPException 400 "file_path parameter is required")
       | Some file_path =>
           (result <- read_file g env fs file_path ;;
            Ok (mkAgentResponse result (success_meta "read_file")))%py
       end
     else if bool_decide (tool_name = "count_r") then
       match required (tool_parameters request !! "text") with
       | None => Raise (HTTPException 400 "text parameter is required")
       | Some text =>
           Ok (mkAgentResponse (str_cps (z_to_str (Z.of_nat (count_r text))))
                 (success_meta "count_r"))
       end
     else Raise (HTTPException 404 ("Tool not found: " ++ tool_name)))
    (fun e => Raise (HTTPException 500 (str_exn e))).

(** ** The trivial routes *)

(** GET [/mcp/health] (lines 52-54) and GET [/health] (lines 94-96) *)
Definition health_check : json := JObj [("status", JStr "healthy")].

Definition tool_param (desc : string) : json :=
  JObj [("type", JStr "string"); ("description", JStr desc)].

(** GET [/mcp/tools] (lines 56-81) *)
Definition list_tools : json :=
  JObj [("tools", JArr
    [JObj [("name", JStr "read_file");
           ("description", JStr "Read the content of a file. Files must be in Documents, Downloads, Desktop, or github folders.");
           ("parameters", JObj [("file_path", tool_param "Path to the file to read")])];
     JObj [("name", JStr "count_r");
           ("description", JStr "Count the number of 'r' characters in a string");
           ("parameters", JObj [("text", tool_param "Text to count 'r' characters in")])]])].

(** POST [/mcp/execute] (lines 83-91): [await request.json()] is the
    parsed body, or the exception of the parser. *)
Definition execute_mcp (body : res json) : res json :=
  except_all
    (data <- body ;; Ok (JObj [("status", JStr "success"); ("data", data)]))%py
    (fun e => Raise (HTTPException 500 (str_exn e))).

(** GET [/] (lines 215-218) *)
Definition root : json := JObj [("message", JStr "Welcome to MCP AI Agent Server")].

(** ** Lemmas *)

Lemma except_all_500 {A} (r : res A) e :
  except_all r (fun e => Raise (HTTPException 500 (str_exn e))) = Raise e ->
  exists d, e = HTTPException 500 d.
Proof. destruct r; simpl; [discriminate|]. intros [= <-]. by eexists. Qed.

Lemma success_meta_inj t1 t2 :
  success_meta t1 = success_meta t2 -> t1 = t2.
Proof. by intros [= ->]. Qed.

(** ** Theorems *)

(** (C7) Every failure of POST [/process] is a 500, and the [except
    Exception] of line 248 also catches the [HTTPException]s of
    [read_file]: a failure of the file reader with status [c] and detail
    [d] (a 403, 404 or 400 in the spec) reaches the client as a 500 whose
    detail is [str(e)], that is ["c: d"]. *)
Theorem process_request_errors_500 g env fs p ctx ps :
  (forall e, process_request g env fs (mkAgentRequest p ctx ps) = Raise e ->
     exists d, e = HTTPException 500 d) /\
  (forall x c d,
     contains (py_lower p) "read_file" = true ->
     split_index1 p "read_file" = Ok x ->
     read_file g env fs (py_strip x) = Raise (HTTPException c d) ->
     process_request g env fs (mkAgentRequest p ctx ps) =
       Raise (HTTPException 500 (z_to_str c ++ ": " ++ d))).
Proof.
  split; [apply except_all_500|].
  intros x c d Hl Hs Hr. unfold process_request. cbn [prompt].
  by rewrite Hl, Hs; simpl; rewrite Hr.
Qed.

(** (C8) The tool is chosen on the lowered prompt but the path is cut
    from the prompt as written: a prompt that names the tool as
    [READ_FILE] (or any spelling but the lower-case one) gets a 500
    "list index out of range". *)
Theorem process_request_case_mismatch g env fs p ctx ps :
  contains (py_lower p) "read_file" = true -> contains p "read_file" = false ->
  process_request g env fs (mkAgentRequest p ctx ps) =
    Raise (HTTPException 500 "list index out of range").
Proof.
  intros Hl Hp. unfold process_request. simpl. rewrite Hl.
  by rewrite split_index1_absent.
Qed.


(** (C2) With the globals of the import, the [read_file] tool is
    unusable through both endpoints: POST [/process] never answers with
    the metadata of a successful read, and POST [/tools/read_file] never
    answers at all but with an error. *)
Theorem read_file_tool_unusable env g fs :
  module_init env = Ok g ->
  (forall request r, process_request g env fs request = Ok r ->
     metadata r <> success_meta "read_file") /\
  (forall request r, execute_tool g env fs "read_file" request <> Ok r).
Proof.
  intros Hinit. pose proof (module_init_unbound _ _ Hinit) as Hg. split.
  - intros request r. unfold process_request.
    destruct (contains _ "read_file").
    + destruct (split_index1 _ "read_file") as [x|e]; simpl; [|discriminate].
      destruct (read_file g env fs (py_strip x)) as [t|e] eqn:Hr; simpl.
      * exfalso. by apply (read_file_unbound_not_ok _ _ _ _ _ Hg Hr).
      * discriminate.
    + destruct (contains _ "count_r").
      * destruct (split_index1 _ "count_r"); simpl; [|discriminate].
        intros [= <-]. simpl. intros Hm. apply success_meta_inj in Hm. discriminate.
      * intros [= <-]. discriminate.
  - intros request r. unfold execute_tool. simpl.
    destruct (required _) as [fp|]; simpl; [|discriminate].
    destruct (read_file g env fs fp) as [t|e] eqn:Hr; simpl.
    + exfalso. by apply (read_file_unbound_not_ok _ _ _ _ _ Hg Hr).
    + by destruct e.
Qed.


(** (C13) The status codes of POST [/tools/{tool_name}], case by case: an
    unknown tool is a 404 naming it, a missing or empty parameter is the
    400 of its tool, [read_file] answers with the file's text or passes
    on its [HTTPException] unchanged, and [count_r] answers with the
    count. *)
Theorem execute_tool_spec g env fs :
  (forall tool_name request, tool_name <> "read_file" -> tool_name <> "count_r" ->
     execute_tool g env fs tool_name request =
       Raise (HTTPException 404 ("Tool not found: " ++ tool_name))) /\
  (forall request, required (tool_parameters request !! "file_path") = None ->
     execute_tool g env fs "read_file" request =
       Raise (HTTPException 400 "file_path parameter is required")) /\
  (forall request fp, required (tool_parameters request !! "file_path") = Some fp ->
     execute_tool g env fs "read_file" request =
       match read_file g env fs fp with
       | Ok t => Ok (mkAgentResponse t (success_meta "read_file"))
       | Raise e => Raise e
       end) /\
  (forall request, required (tool_parameters request !! "text") = None ->
     execute_tool g env fs "count_r" request =
       Raise (HTTPException 400 "text parameter is required")) /\
  (forall request text, required (tool_parameters request !! "text") = Some text ->
     execute_tool g env fs "count_r" request =
       Ok (mkAgentResponse (str_cps (z_to_str (Z.of_nat (count_r text))))
             (success_meta "count_r"))).
Proof.
  unfold execute_tool. split; [|split; [|split; [|split]]].
  - intros tool_name request Hr Hc.
    by rewrite bool_decide_false, bool_decide_false.
  - intros request Hn. by rewrite bool_decide_true, Hn.
  - intros request fp Hs. rewrite bool_decide_true, Hs by done. simpl.
    destruct (read_file g env fs fp) as [t|e] eqn:Hr; [done|].
    by destruct (read_file_Raise _ _ _ _ _ Hr) as (c & d & -> & _).
  - intros request Hn. by rewrite bool_decide_false, bool_decide_true, Hn.
  - intros request text Hs. by rewrite bool_decide_false, bool_decide_true, Hs.
Qed.

(** (C14) The [count_r] branch of POST [/process]: for a prompt in which
    [count_r] occurs once, after a text [a], and whose lowered form does
    not mention [read_file], the answer is the number of [r] and [R] in
    the stripped text after [count_r]. *)
Theorem process_request_count_r g env fs a t ctx ps :
  contains (py_lower (a ++ "count_r" ++ t)) "read_file" = false ->
  contains (a ++ "count_") "count_r" = false ->
  contains t "count_r" = false ->
  process_request g env fs (mkAgentRequest (a ++ "count_r" ++ t) ctx ps) =
    Ok (mkAgentResponse
          (str_cps ("Number of 'r' characters: " ++ z_to_str (Z.of_nat (count_r (py_strip t)))))
          (success_meta "count_r")).
Proof.
  intros Hrf Ha Ht. unfold process_request. cbn [prompt]. rewrite Hrf.
  rewrite !py_lower_app, contains_mid.
  change "count_r" with ("count_" ++ str1 "r") in *.
  by rewrite split_index1_once.
Qed.

(** The witness of (C8): [READ_FILE ~/notes.txt]. *)
Lemma process_request_case_mismatch_witness :
  process_request alice_bound alice_env alice_fs
    (mkAgentRequest "READ_FILE /home/alice/Documents/cafe.txt" None None) =
    Raise (HTTPException 500 "list index out of range").
Proof.
  apply process_request_case_mismatch; vm_compute; reflexivity.
Defined.


(** The witness of (C14): [Please count_r Strawberry] has three. *)
Lemma process_request_count_r_witness :
  process_request alice_imported alice_env alice_fs
    (mkAgentRequest ("Please " ++ "count_r" ++ " Strawberry") None None) =
    Ok (mkAgentResponse (str_cps ("Number of 'r' characters: " ++ "3"))
          (success_meta "count_r")).
Proof.
  rewrite process_request_count_r by (vm_compute; reflexivity).
  reflexivity.
Defined.

(** The witness of (C7): the 403 of the validator reaches the client
    of POST [/process] as a 500 whose detail starts with [403]. *)
Lemma process_request_errors_500_witness :
  process_request alice_bound alice_env alice_fs
    (mkAgentRequest "read_file /etc/passwd" None None) =
    Raise (HTTPException 500 ("403" ++ ": " ++ denied_detail)).
Proof.
  apply (proj2 (process_request_errors_500 alice_bound alice_env alice_fs
                  "read_file /etc/passwd" None None) " /etc/passwd" 403%Z denied_detail);
    vm_compute; reflexivity.
Defined.

(** The witness of (C13): an unknown tool is a 404, a [count_r] call
    without [text] a 400. *)
Lemma execute_tool_spec_witness :
  execute_tool alice_bound alice_env alice_fs "grep" (mkToolRequest "grep" ∅) =
    Raise (HTTPException 404 ("Tool not found: " ++ "grep")) /\
  execute_tool alice_bound alice_env alice_fs "count_r" (mkToolRequest "count_r" ∅) =
    Raise (HTTPException 400 "text parameter is required").
Proof.
  destruct (execute_tool_spec alice_bound alice_env alice_fs) as (H404 & _ & _ & H400 & _).
  split; [apply H404; discriminate|apply H400; reflexivity].
Defined.

(** The witness of (C2): the globals of Alice's import. *)
Lemma read_file_tool_unusable_witness :
  (forall request r, process_request alice_imported alice_env alice_fs request = Ok r ->
     metadata r <> success_meta "read_file") /\
  (forall request r, execute_tool alice_imported alice_env alice_fs "read_file" request <> Ok r).
Proof. apply read_file_tool_unusable. reflexivity. Defined.


End Dispatch.
