(* ===== verification/Startup.v ===== *)
(** * Start-up: the search for a free port ([src/main.py] lines 284-295)

    When run as a script, [main.py] probes the ports 8081, 8082, ... with
    [is_port_in_use] (lines 121-123, a [connect_ex] to 127.0.0.1) for at
    most five attempts; the [for ... else] exits with status 1 when no
    attempt breaks out of the loop, otherwise uvicorn is started on the
    port found.  Whether a port is in use is the state of the host's
    sockets: the model takes it as a function [in_use] read at each
    probe.  The loop is a structural recursion on the attempts left. *)

From Stdlib Require Import ZArith Lia.
From stdpp Require Import base list.
From S2P Require Import Prelude.

Module Startup.
Open Scope Z_scope.

(** What the script does after the loop: start the server on a port, or
    [sys.exit(1)]. *)
Inductive outcome : Type :=
| Serve (port : Z)
| Exit (code : Z).

(** The [for attempt in range(attempts)] loop from [port] on. *)
Fixpoint find_port (in_use : Z -> bool) (attempts : nat) (port : Z) : outcome :=
  match attempts with
  | O => Exit 1
  | S n => if negb (in_use port) then Serve port else find_port in_use n (port + 1)
  end.

(** [port = 8081], [max_attempts = 5] (lines 285-295) *)
Definition main_port (in_use : Z -> bool) : outcome := find_port in_use 5 8081.

(** ** Lemmas *)

Lemma find_port_serve in_use n p q :
  find_port in_use n p = Serve q <->
  p <= q < p + Z.of_nat n /\ in_use q = false /\
  (forall r, p <= r < q -> in_use r = true).
Proof.
  revert p. induction n as [|n IH]; intros p; simpl.
  - split; [discriminate|lia].
  - destruct (in_use p) eqn:Hp; simpl.
    + rewrite IH. split.
      * intros (Hq & Hf & Hr). split; [lia|]. split; [done|].
        intros r Hr'. destruct (decide (r = p)) as [->|]; [done|]. apply Hr. lia.
      * intros (Hq & Hf & Hr). assert (q <> p) by congruence.
        split; [lia|]. split; [done|]. intros r Hr'. apply Hr. lia.
    + split.
      * intros [= <-]. split; [lia|]. split; [done|]. lia.
      * intros (Hq & Hf & Hr). destruct (decide (q = p)) as [->|]; [done|].
        rewrite Hr in Hp; [discriminate|lia].
Qed.

Lemma find_port_exit in_use n p c :
  find_port in_use n p = Exit c <->
  c = 1 /\ forall r, p <= r < p + Z.of_nat n -> in_use r = true.
Proof.
  revert p. induction n as [|n IH]; intros p; simpl.
  - split; [intros [= <-]; split; [done|lia] | by intros [-> _]].
  - destruct (in_use p) eqn:Hp; simpl.
    + rewrite IH. split.
      * intros [-> Hr]. split; [done|]. intros r Hr'.
        destruct (decide (r = p)) as [->|]; [done|]. apply Hr. lia.
      * intros [-> Hr]. split; [done|]. intros r Hr'. apply Hr. lia.
    + split; [discriminate|]. intros [_ Hr]. rewrite Hr in Hp; [discriminate|lia].
Qed.

(** ** Theorems *)

(** (C16) The port the server starts on is the first free port among
    8081..8085; when all five are taken the script exits with status 1.
    No port outside this range is ever chosen. *)
Theorem main_port_spec in_use :
  (forall q, main_port in_use = Serve q <->
     8081 <= q <= 8085 /\ in_use q = false /\
     (forall r, 8081 <= r < q -> in_use r = true)) /\
  (main_port in_use = Exit 1 <-> forall r, 8081 <= r <= 8085 -> in_use r = true).
Proof.
  split.
  - intros q. unfold main_port. rewrite find_port_serve. simpl. split; intros (? & ? & ?);
      (split; [lia|]); done.
  - unfold main_port. rewrite find_port_exit. simpl. split.
    + intros [_ Hr] r ?. apply Hr. lia.
    + intros Hr. split; [done|]. intros r ?. apply Hr. lia.
Qed.

End Startup.
