(* ===== verification/Agent.v ===== *)
(** * The language-model adapter: [MCPAgent] of [src/agent.py]

    [MCPAgent.__init__] (lines 6-10) reads [OPENAI_API_KEY] from the
    environment, raises [ValueError] when it is missing or empty, and
    stores it in the agent and in the module attribute [openai.api_key].
    [MCPAgent.process] (lines 12-44) builds the chat messages (one
    [system] message per context string, then the [user] prompt), picks
    the temperature and the token limit (defaults 0.7 and 1000 unless a
    non-empty [parameters] dict gives them), calls
    [openai.ChatCompletion.acreate] and returns the content of the first
    choice; every exception is re-raised as an [Exception] whose message
    starts with "Error processing request: ".

    The upstream call is an interface, the class [ChatCompletion]: the
    theorems hold for every implementation of it.  The module attribute
    [openai.api_key] is state shared by all agents, threaded explicitly
    through [init].  Nothing in [src/main.py] imports this file. *)

From Stdlib Require Import String ZArith Lia.
From stdpp Require Import base list strings gmap.
From S2P Require Import Prelude PosixPath.

Open Scope string_scope.

Module Agent.

(** ** Data *)

(** The values a [parameters] dict may hold; a float is [m * 10^e]. *)
Inductive value : Type :=
| VInt (n : Z)
| VFloat (mantissa exponent : Z)
| VStr (s : string)
| VBool (b : bool)
| VNone.

(** [{"role": ..., "content": ...}] *)
Record Message : Type := mkMessage { role : string; content : string }.

(** The keyword arguments of [acreate] *)
Record ChatRequest : Type := mkChatRequest {
  model : string;
  messages : list Message;
  temperature : value;
  max_tokens : value
}.

(** [response.choices[i].message] *)
Record ChatResponse : Type := mkChatResponse { choices : list Message }.

(** The upstream client: [openai.ChatCompletion.acreate], which may
    answer or raise. *)
Class ChatCompletion : Type := { acreate : ChatRequest -> res ChatResponse }.

Record MCPAgent : Type := mkMCPAgent { api_key : string }.

(** The attribute [openai.api_key] of the [openai] module *)
Record OpenAIModule : Type := mkOpenAIModule { openai_api_key : option string }.

(** ** Operations *)

Definition key_error_msg : string := "OPENAI_API_KEY environment variable not set".

(** [MCPAgent()] (lines 6-10) *)
Definition init (env : Env) (m : OpenAIModule) : res (MCPAgent * OpenAIModule) :=
  match environ env !! "OPENAI_API_KEY" with
  | Some k =>
      if bool_decide (k = "") then Raise (ValueError key_error_msg)
      else Ok (mkMCPAgent k, mkOpenAIModule (Some k))
  | None => Raise (ValueError key_error_msg)
  end.

(** Lines 26-31: [if context: for ctx in context: ...], then the prompt *)
Definition build_messages (prompt : string) (context : option (list string)) : list Message :=
  match context with
  | Some ctx => map (mkMessage "system") ctx
  | None => []
  end ++ [mkMessage "user" prompt].

(** [parameters.get(k, default) if parameters else default] *)
Definition param (parameters : option (gmap string value)) (k : string) (default : value)
    : value :=
  match parameters with
  | Some ps =>
      if bool_decide (ps = ∅) then default
      else match ps !! k with Some v => v | None => default end
  | None => default
  end.

(** The request of lines 34-39 *)
Definition chat_request (prompt : string) (context : option (list string))
    (parameters : option (gmap string value)) : ChatRequest :=
  mkChatRequest "gpt-3.5-turbo" (build_messages prompt context)
    (param parameters "temperature" (VFloat 7 (-1)))
    (param parameters "max_tokens" (VInt 1000)).

(** [await agent.process(prompt, context, parameters)] (lines 12-44) *)
Definition process `{ChatCompletion} (agent : MCPAgent) (prompt : string)
    (context : option (list string)) (parameters : option (gmap string value))
    : res string :=
  except_all
    (response <- acreate (chat_request prompt context parameters) ;;
     match choices response with
     | c :: _ => Ok (content c)
     | [] => Raise IndexError
     end)%py
    (fun e => Raise (PyException ("Error processing request: " ++ str_exn e))).

(** ** Theorems *)

(** (C17) [MCPAgent()] succeeds exactly when [OPENAI_API_KEY] is set to a
    non-empty string; the agent and the shared [openai.api_key] then
    both hold it.  Otherwise it raises the [ValueError] of line 9. *)
Theorem init_spec env m :
  (forall a m', init env m = Ok (a, m') <->
     exists k, environ env !! "OPENAI_API_KEY" = Some k /\ k <> "" /\
       a = mkMCPAgent k /\ m' = mkOpenAIModule (Some k)) /\
  (forall e, init env m = Raise e -> e = ValueError key_error_msg).
Proof.
  unfold init. split.
  - intros a m'. destruct (environ env !! "OPENAI_API_KEY") as [k|]; split.
    + case_bool_decide; [discriminate|]. intros [= <- <-]. by exists k.
    + intros (k' & [= <-] & Hk & -> & ->). by rewrite bool_decide_false.
    + discriminate.
    + by intros (k & ? & _).
  - intros e. destruct (environ env !! "OPENAI_API_KEY"); [|by intros [= <-]].
    case_bool_decide; [by intros [= <-]|discriminate].
Qed.

(** (C18) The messages sent upstream: one [system] message per context
    string, in order, then the prompt as the single [user] message. *)
Theorem chat_request_messages prompt context parameters :
  let ms := messages (chat_request prompt context parameters) in
  let ctx := match context with Some c => c | None => [] end in
  length ms = length ctx + 1 /\
  last ms = Some (mkMessage "user" prompt) /\
  (forall i c, ctx !! i = Some c -> ms !! i = Some (mkMessage "system" c)).
Proof.
  simpl. unfold build_messages.
  set (sys := match context with Some ctx => map (mkMessage "system") ctx | None => [] end).
  assert (Hsys : sys = map (mkMessage "system") (match context with Some c => c | None => [] end))
    by (subst sys; by destruct context).
  rewrite Hsys. split; [|split].
  - rewrite length_app, length_map. simpl. lia.
  - by rewrite last_snoc.
  - intros i c Hi. rewrite lookup_app_l.
    + by rewrite list_lookup_fmap, Hi.
    + rewrite length_map. by eapply lookup_lt_Some.
Qed.

(** (C19) The temperature and the token limit sent upstream are the
    values the [parameters] dict gives for ["temperature"] and
    ["max_tokens"], and 0.7 and 1000 when there is no dict, the dict is
    empty, or it lacks the key. *)
Theorem chat_request_params prompt context parameters :
  temperature (chat_request prompt context parameters) =
    default (VFloat 7 (-1)) (parameters ≫= lookup "temperature") /\
  max_tokens (chat_request prompt context parameters) =
    default (VInt 1000) (parameters ≫= lookup "max_tokens").
Proof.
  simpl. unfold param. destruct parameters as [ps|]; [simpl|done].
  case_bool_decide as Hps; [subst ps; by rewrite !lookup_empty|].
  split; by destruct (ps !! _).
Qed.

Section WithClient.
Context `{ChatCompletion}.

(** (C20) How [process] fails: an exception [cause] of the upstream
    call is re-raised as an [Exception] with the message
    "Error processing request: " followed by [str(cause)], and an answer
    without choices gives the [IndexError] of [choices[0]], wrapped the
    same way. *)
Theorem process_errors_wrapped agent prompt context parameters :
  (forall cause, acreate (chat_request prompt context parameters) = Raise cause ->
     process agent prompt context parameters =
       Raise (PyException ("Error processing request: " ++ str_exn cause))) /\
  (forall r, acreate (chat_request prompt context parameters) = Ok r -> choices r = [] ->
     process agent prompt context parameters =
       Raise (PyException "Error processing request: list index out of range")).
Proof.
  unfold process. split.
  - intros cause Hc. by rewrite Hc.
  - intros r Hr Hch. by rewrite Hr; simpl; rewrite Hch.
Qed.

(** (C21) When the upstream call answers with at least one choice,
    [process] returns the content of the first one. *)
Theorem process_first_choice agent prompt context parameters r c cs :
  acreate (chat_request prompt context parameters) = Ok r -> choices r = c :: cs ->
  process agent prompt context parameters = Ok (content c).
Proof. intros Hr Hc. unfold process. by rewrite Hr; simpl; rewrite Hc. Qed.

End WithClient.

(** A client that answers every request with its last message echoed. *)
#[local] Instance echo_client : ChatCompletion :=
  {| acreate := fun req => Ok (mkChatResponse (match last (messages req) with
                                                | Some m => [m]
                                                | None => []
                                                end)) |}.

(** The witness of (C20): an upstream 503 reaches the caller in the
    message of the wrapping exception. *)
Lemma process_errors_wrapped_witness :
  @process {| acreate := fun _ => Raise (HTTPException 503 "upstream down") |}
    (mkMCPAgent "k") "hi" None None =
    Raise (PyException ("Error processing request: " ++ "503: upstream down")).
Proof.
  apply (proj1 (@process_errors_wrapped
                  {| acreate := fun _ => Raise (HTTPException 503 "upstream down") |}
                  (mkMCPAgent "k") "hi" None None) (HTTPException 503 "upstream down")).
  reflexivity.
Defined.

(** The witness of (C21): the echo client returns the prompt. *)
Lemma process_first_choice_witness :
  process (mkMCPAgent "k") "hello" (Some ["be brief"]) None = Ok "hello".
Proof.
  apply (process_first_choice (mkMCPAgent "k") "hello" (Some ["be brief"]) None
           (mkChatResponse [mkMessage "user" "hello"]) (mkMessage "user" "hello") []);
    reflexivity.
Defined.

End Agent.
